(** * DF Imoveis rental scraper: a shallow embedding of
      [webscraper_dfimoveis_final.py] and the properties of its crawl.

    The script drives a browser over the paginated listing pages of the
    portal, extracts one dictionary per advertisement and finally writes
    the dictionaries to a CSV file.  Python text is held as the bytes of
    its UTF-8 encoding; the parsed page is the tree BeautifulSoup builds;
    the browser, the clock, the console and the file system are an
    explicit machine state with an event log. *)

From Stdlib Require Import List String Ascii Bool Arith Lia.
From Stdlib Require Import DecimalString DecimalNat.
Import ListNotations.
Set Warnings "-register-all".
Open Scope string_scope.
Open Scope nat_scope.

(** ** Python strings *)

Module PyStr.

(** [s.startswith(p)] *)
Fixpoint startswith (p s : string) : bool :=
  match p with
  | EmptyString => true
  | String a p' =>
      match s with
      | EmptyString => false
      | String b s' => Ascii.eqb a b && startswith p' s'
      end
  end.

(** Code points below 128 for which [str.isspace] holds:
    TAB..CR, FS..US and SPACE. *)
Definition isspace_ascii (c : ascii) : bool :=
  let n := nat_of_ascii c in
  ((9 <=? n) && (n <=? 13)) || ((28 <=? n) && (n <=? 32)).

Definition byte_is (c : ascii) (n : nat) : bool := nat_of_ascii c =? n.

(** The other white space of Python 3 (U+0085, U+00A0, U+1680,
    U+2000..U+200A, U+2028, U+2029, U+202F, U+205F, U+3000) takes two or
    three bytes in UTF-8.  [space2 a b] and [space3 a b c] recognise
    those encodings, bytes given in reading order. *)
Definition space2 (a b : ascii) : bool :=
  byte_is a 194 && (byte_is b 133 || byte_is b 160).

Definition space3 (a b c : ascii) : bool :=
  let n := nat_of_ascii c in
  (byte_is a 225 && byte_is b 154 && byte_is c 128)
  || (byte_is a 226 && byte_is b 128
      && (((128 <=? n) && (n <=? 138)) || (n =? 168) || (n =? 169) || (n =? 175)))
  || (byte_is a 226 && byte_is b 129 && byte_is c 159)
  || (byte_is a 227 && byte_is b 128 && byte_is c 128).

(** [s.lstrip()] on the bytes of [s]. *)
Fixpoint lstrip_bytes (l : list ascii) : list ascii :=
  match l with
  | [] => []
  | a :: r1 =>
      if isspace_ascii a then lstrip_bytes r1
      else match r1 with
           | [] => l
           | b :: r2 =>
               if space2 a b then lstrip_bytes r2
               else match r2 with
                    | [] => l
                    | c :: r3 => if space3 a b c then lstrip_bytes r3 else l
                    end
           end
  end.

(** The same scan over the reversed bytes, for [s.rstrip()]: an encoded
    character is met last byte first. *)
Fixpoint lstrip_rev_bytes (l : list ascii) : list ascii :=
  match l with
  | [] => []
  | a :: r1 =>
      if isspace_ascii a then lstrip_rev_bytes r1
      else match r1 with
           | [] => l
           | b :: r2 =>
               if space2 b a then lstrip_rev_bytes r2
               else match r2 with
                    | [] => l
                    | c :: r3 => if space3 c b a then lstrip_rev_bytes r3 else l
                    end
           end
  end.

(** [s.strip()] *)
Definition strip (s : string) : string :=
  string_of_list_ascii
    (rev (lstrip_rev_bytes (rev (lstrip_bytes (list_ascii_of_string s))))).

Fixpoint drop_while (p : ascii -> bool) (l : list ascii) : list ascii :=
  match l with
  | [] => []
  | a :: r => if p a then drop_while p r else l
  end.

(** [s.strip(chars)] for a one-character [chars]. *)
Definition strip_char (ch : ascii) (s : string) : string :=
  let p := Ascii.eqb ch in
  string_of_list_ascii
    (rev (drop_while p (rev (drop_while p (list_ascii_of_string s))))).

(** [str(n)] for a non-negative integer. *)
Definition str_of_nat (n : nat) : string :=
  NilEmpty.string_of_uint (Nat.to_uint n).

End PyStr.

(** ** Exceptions and results *)

Inductive exn : Type :=
| AttributeError
| TypeError
| KeyError
| WebDriverException.

(** Outcome of running a piece of the script: a value, a raised exception,
    or [OutOfFuel] when the bounded unrolling of the [while] loop was too
    short (shown below never to happen). *)
Inductive result (A : Type) : Type :=
| Ok (a : A)
| Raise (e : exn)
| OutOfFuel.
Arguments Ok {A} a.
Arguments Raise {A} e.
Arguments OutOfFuel {A}.

(** ** The parsed page (BeautifulSoup tree) *)

Module Bs4.

(** A node is a string or a tag.  A tag holds its name, the value of its
    multi-valued [class] attribute (a list, as html.parser stores it), its
    other attributes and its children. *)
Inductive node : Type :=
| NavigableString (s : string)
| Tag (name : string) (classes : list string)
      (attrs : list (string * string)) (contents : list node).

Definition soup := node.

(** The [BeautifulSoup] object itself, a tag named [[document]]. *)
Definition document (contents : list node) : soup :=
  Tag "[document]" [] [] contents.

Fixpoint get_attr (k : string) (attrs : list (string * string)) : option string :=
  match attrs with
  | [] => None
  | (k', v) :: r => if String.eqb k' k then Some v else get_attr k r
  end.

(** [tag.descendants]: every node below the tag, in document order. *)
Fixpoint descendants (n : node) : list node :=
  match n with
  | NavigableString _ => []
  | Tag _ _ _ cs =>
      (fix go (l : list node) : list node :=
         match l with
         | [] => []
         | c :: r => c :: (descendants c ++ go r)%list
         end) cs
  end.

(** [tag.text]: all strings below the node, concatenated. *)
Fixpoint text (n : node) : string :=
  match n with
  | NavigableString s => s
  | Tag _ _ _ cs =>
      (fix go (l : list node) : string :=
         match l with
         | [] => EmptyString
         | c :: r => text c ++ go r
         end) cs
  end.

(** How a search criterion on [class_] matches a multi-valued attribute:
    one of the values is the wanted string, or all of them joined by a
    space are. *)
Definition class_matches (c : string) (classes : list string) : bool :=
  existsb (String.eqb c) classes || String.eqb (String.concat " " classes) c.

(** The three kinds of search the script performs. *)
Inductive criterion : Type :=
| ByClass (name cls : string)        (* find(name, class_=cls) *)
| ByAttr (name key value : string)   (* find(name, attrs={key: value}) *)
| HasAttr (name key : string).       (* find(name, key=True) *)

Definition matches (q : criterion) (n : node) : bool :=
  match n with
  | NavigableString _ => false
  | Tag nm cls attrs _ =>
      match q with
      | ByClass name c => String.eqb nm name && class_matches c cls
      | ByAttr name k v =>
          String.eqb nm name
          && match get_attr k attrs with
             | Some v' => String.eqb v' v
             | None => false
             end
      | HasAttr name k =>
          String.eqb nm name
          && match get_attr k attrs with Some _ => true | None => false end
      end
  end.

(** [tag.find_all(...)]: the matching descendants, in document order. *)
Definition find_all (q : criterion) (n : node) : list node :=
  filter (matches q) (descendants n).

(** [tag.find(...)]: the first match, or [None]. *)
Definition find (q : criterion) (n : node) : option node :=
  match find_all q n with
  | [] => None
  | t :: _ => Some t
  end.

End Bs4.
Import Bs4.

(** Attribute access and subscription on the value of a [find], which may
    be Python's [None]. *)

(** [x.text] *)
Definition attr_text (x : option node) : result string :=
  match x with
  | None => Raise AttributeError
  | Some t => Ok (text t)
  end.

(** [x[key]] *)
Definition subscript (x : option node) (key : string) : result string :=
  match x with
  | None => Raise TypeError
  | Some (NavigableString _) => Raise TypeError
  | Some (Tag _ _ attrs _) =>
      match get_attr key attrs with
      | Some v => Ok v
      | None => Raise KeyError
      end
  end.

(** [x.find(...)] *)
Definition attr_find (x : option node) (q : criterion) : result (option node) :=
  match x with
  | None => Raise AttributeError
  | Some t => Ok (find q t)
  end.

(** Sequencing of computations that may raise. *)
Definition bind_result {A B : Type} (c : result A) (k : A -> result B) : result B :=
  match c with
  | Ok a => k a
  | Raise e => Raise e
  | OutOfFuel => OutOfFuel
  end.

Notation "'let?' x := c 'in' k" := (bind_result c (fun x => k))
  (at level 10, x name, c at level 100, k at level 200).

(** ** Part 2 of the script: the configuration *)

Definition URL_BASE : string := "https://www.dfimoveis.com.br/aluguel/df/todos/imoveis".
Definition HOME_PAGE : string := "https://www.dfimoveis.com.br/".
Definition NOME_ARQUIVO_BRUTO : string := "imoveis_aluguel_df_dataset_completo.csv".
Definition MAX_PAGINAS : nat := 350.

(** ** Extraction of one advertisement (the body of the inner [try]) *)

(** A Python dictionary with string keys and values, in insertion order. *)
Definition dict := list (string * string).

(** [f"{home.strip('/')}{link}" if link.startswith('/') else link];
    the script calls it with [HOME_PAGE]. *)
Definition url_completa_de (home link : string) : string :=
  if PyStr.startswith "/" link
  then PyStr.strip_char "/"%char home ++ link
  else link.

Definition url_completa (link : string) : string := url_completa_de HOME_PAGE link.

(** The local helper [get_feature], closed over [features_list]. *)
Definition get_feature (features_list : option node) (feature_name : string)
  : result string :=
  let? tag := attr_find features_list (ByAttr "li" "title" feature_name) in
  match tag with
  | Some t => Ok (PyStr.strip (text t))
  | None => Ok "N/A"
  end.

Definition q_price : criterion := ByClass "p" "property-list__price".
Definition q_address : criterion := ByClass "p" "property-list__address".
Definition q_link : criterion := HasAttr "a" "href".
Definition q_features : criterion := ByClass "ul" "property-list__features".
Definition q_item : criterion := ByClass "div" "property-list__item".

(** Lines 112 to 134: everything the [try] computes before the append. *)
Definition extrair (anuncio : node) : result dict :=
  let? preco_t := attr_text (find q_price anuncio) in
  let preco := PyStr.strip preco_t in
  let? endereco_t := attr_text (find q_address anuncio) in
  let endereco := PyStr.strip endereco_t in
  let? link := subscript (find q_link anuncio) "href" in
  let url := url_completa link in
  let features_list := find q_features anuncio in
  let? area := get_feature features_list "Área útil" in
  let? quartos := get_feature features_list "Quartos" in
  let? suites := get_feature features_list "Suítes" in
  let? vagas := get_feature features_list "Vagas" in
  Ok [ ("preco_anuncio", preco); ("endereco", endereco); ("area_util_m2", area);
       ("quartos", quartos); ("suites", suites); ("vagas", vagas); ("url", url) ].

(** ** The outside world and the machine state *)

(** What the browser meets at a URL: [driver.get] raises, or the page
    loads but reading [driver.page_source] raises, or the page loads and
    parses to a tree.  One run requests every URL at most once, so a
    function of the URL describes any behaviour of the remote site during
    a run. *)
Inductive response : Type :=
| NavError (e : exn)
| SourceError (e : exn)
| Page (doc : soup).

(** Console output, one constructor per [print] of parts 4 and 5
    ([MsgDfHead] is the printed [df.head()]). *)
Inductive message : Type :=
| MsgAquecendo
| MsgNavegando (pagina : nat)
| MsgPausa
| MsgFimDaColeta
| MsgEncontrados (n : nat)
| MsgAvisoPulado
| MsgFinalizando
| MsgCriandoDataFrame (n : nat)
| MsgSucesso
| MsgAmostra
| MsgDfHead
| MsgNenhumDado.

Inductive event : Type :=
| EvPrint (m : message)
| EvGet (url : string)
| EvSleep (lo hi : nat)
| EvQuit
| EvToCsv (path : string).

(** A pandas [DataFrame] of text cells; [None] is a missing cell (NaN). *)
Record DataFrame : Type := {
  columns : list string;
  rows : list (list (option string))
}.

(** What [to_csv] leaves on disk: the table and the two keyword arguments
    that shape the file. *)
Record csv_file : Type := {
  csv_encoding : string;
  csv_index : bool;
  csv_table : DataFrame
}.

Definition filesystem := string -> option csv_file.

Definition write_file (path : string) (f : csv_file) (fs : filesystem) : filesystem :=
  fun p => if String.eqb p path then Some f else fs p.

Record machine : Type := {
  dados_gerais_imoveis : list dict;
  pagina_atual : nat;
  shown : response;
  log : list event;
  files : filesystem
}.

Definition emit (e : event) (m : machine) : machine :=
  {| dados_gerais_imoveis := dados_gerais_imoveis m; pagina_atual := pagina_atual m;
     shown := shown m; log := log m ++ [e]; files := files m |}.

Definition set_shown (r : response) (m : machine) : machine :=
  {| dados_gerais_imoveis := dados_gerais_imoveis m; pagina_atual := pagina_atual m;
     shown := r; log := log m; files := files m |}.

Definition set_dados (d : list dict) (m : machine) : machine :=
  {| dados_gerais_imoveis := d; pagina_atual := pagina_atual m;
     shown := shown m; log := log m; files := files m |}.

Definition set_pagina (p : nat) (m : machine) : machine :=
  {| dados_gerais_imoveis := dados_gerais_imoveis m; pagina_atual := p;
     shown := shown m; log := log m; files := files m |}.

Definition set_files (fs : filesystem) (m : machine) : machine :=
  {| dados_gerais_imoveis := dados_gerais_imoveis m; pagina_atual := pagina_atual m;
     shown := shown m; log := log m; files := fs |}.

(** ** The monad of the script: state and exceptions *)

Definition M (A : Type) : Type := machine -> result A * machine.

Definition ret {A : Type} (a : A) : M A := fun m => (Ok a, m).

Definition bind {A B : Type} (c : M A) (k : A -> M B) : M B :=
  fun m =>
    match c m with
    | (Ok a, m') => k a m'
    | (Raise e, m') => (Raise e, m')
    | (OutOfFuel, m') => (OutOfFuel, m')
    end.

Notation "x <- c ;; k" := (bind c (fun x => k))
  (at level 61, c at next level, right associativity).
Notation "c ;; k" := (bind c (fun _ => k))
  (at level 61, right associativity).

Definition lift {A : Type} (r : result A) : M A := fun m => (r, m).

(** [try: body / except AttributeError: handler] *)
Definition try_except_AttributeError (body handler : M unit) : M unit :=
  fun m =>
    match body m with
    | (Raise AttributeError, m') => handler m'
    | other => other
    end.

(** [try: body / finally: fin]: [fin] runs however [body] ends, and what
    [body] returned or raised is kept unless [fin] itself raises. *)
Definition try_finally {A : Type} (body : M A) (fin : M unit) : M A :=
  fun m =>
    let (r, m1) := body m in
    match fin m1 with
    | (Ok _, m2) => (r, m2)
    | (Raise e, m2) => (Raise e, m2)
    | (OutOfFuel, m2) => (OutOfFuel, m2)
    end.

Fixpoint for_each {A : Type} (f : A -> M unit) (l : list A) : M unit :=
  match l with
  | [] => ret tt
  | x :: r => f x ;; for_each f r
  end.

Definition print (msg : message) : M unit := fun m => (Ok tt, emit (EvPrint msg) m).

(** [time.sleep(random.uniform(lo, hi))] *)
Definition sleep_uniform (lo hi : nat) : M unit := fun m => (Ok tt, emit (EvSleep lo hi) m).

(** ** pandas *)

Fixpoint lookup (k : string) (d : dict) : option string :=
  match d with
  | [] => None
  | (k', v) :: r => if String.eqb k' k then Some v else lookup k r
  end.

Definition add_column (cols : list string) (k : string) : list string :=
  if existsb (String.eqb k) cols then cols else cols ++ [k].

(** [pd.DataFrame(list_of_dicts)]: the columns are the keys in order of
    first appearance, a row per dictionary. *)
Definition DataFrame_of (ds : list dict) : DataFrame :=
  let cols := fold_left (fun cols d => fold_left add_column (map fst d) cols) ds [] in
  {| columns := cols; rows := map (fun d => map (fun c => lookup c d) cols) ds |}.

(** [df.to_csv(path, index=index, encoding=encoding)]: (re)writes [path]. *)
Definition to_csv (df : DataFrame) (path : string) (index : bool) (encoding : string)
  : M unit :=
  fun m =>
    let f := {| csv_encoding := encoding; csv_index := index; csv_table := df |} in
    (Ok tt, emit (EvToCsv path) (set_files (write_file path f (files m)) m)).

(** ** Parts 4 and 5 of the script *)

Section Script.

(** The remote site as the browser meets it during the run. *)
Variable site : string -> response.

Definition driver_get (url : string) : M unit :=
  fun m =>
    let m1 := emit (EvGet url) m in
    match site url with
    | NavError e => (Raise e, m1)
    | r => (Ok tt, set_shown r m1)
    end.

(** [BeautifulSoup(driver.page_source, 'html.parser')] *)
Definition page_soup : M soup :=
  fun m =>
    match shown m with
    | Page doc => (Ok doc, m)
    | SourceError e => (Raise e, m)
    | NavError e => (Raise e, m)
    end.

Definition driver_quit : M unit := fun m => (Ok tt, emit EvQuit m).

Definition append_imovel (imovel : dict) : M unit :=
  fun m => (Ok tt, set_dados (dados_gerais_imoveis m ++ [imovel]) m).

(** Lines 110 to 141: one turn of the [for] loop. *)
Definition processar_anuncio (anuncio : node) : M unit :=
  try_except_AttributeError
    (imovel <- lift (extrair anuncio) ;; append_imovel imovel)
    (print MsgAvisoPulado).

(** [f"{URL_BASE}?pagina={pagina_atual}" if pagina_atual > 1 else URL_BASE] *)
Definition url_da_pagina (pagina : nat) : string :=
  if 1 <? pagina then URL_BASE ++ "?pagina=" ++ PyStr.str_of_nat pagina else URL_BASE.

(** Lines 81 to 144: the [while] loop, unrolled at most [fuel] times. *)
Fixpoint crawl_loop (fuel : nat) : M unit :=
  fun m =>
    match fuel with
    | 0 => (OutOfFuel, m)
    | S fuel' =>
        if pagina_atual m <=? MAX_PAGINAS then
          (print (MsgNavegando (pagina_atual m)) ;;
           driver_get (url_da_pagina (pagina_atual m)) ;;
           print MsgPausa ;;
           sleep_uniform 4 8 ;;
           soup <- page_soup ;;
           let lista_anuncios := find_all q_item soup in
           match lista_anuncios with
           | [] => print MsgFimDaColeta                      (* break *)
           | _ :: _ =>
               print (MsgEncontrados (List.length lista_anuncios)) ;;
               for_each processar_anuncio lista_anuncios ;;
               (fun m' => (Ok tt, set_pagina (pagina_atual m' + 1) m')) ;;
               crawl_loop fuel'
           end) m
        else (Ok tt, m)
    end.

(** Lines 73 to 149: warm-up and crawl under [try], the browser closed
    under [finally]. *)
Definition coleta : M unit :=
  try_finally
    (print MsgAquecendo ;;
     driver_get HOME_PAGE ;;
     sleep_uniform 3 7 ;;
     crawl_loop (S MAX_PAGINAS))
    (print MsgFinalizando ;; driver_quit).

(** Lines 153 to 167. *)
Definition salvar : M unit :=
  fun m =>
    match dados_gerais_imoveis m with
    | _ :: _ =>
        (print (MsgCriandoDataFrame (List.length (dados_gerais_imoveis m))) ;;
         to_csv (DataFrame_of (dados_gerais_imoveis m)) NOME_ARQUIVO_BRUTO false "utf-8-sig" ;;
         print MsgSucesso ;;
         print MsgAmostra ;;
         print MsgDfHead) m
    | [] => print MsgNenhumDado m
    end.

Definition script : M unit := coleta ;; salvar.

(** The state at line 67: nothing collected, page 1, a blank browser. *)
Definition inicio (fs : filesystem) : machine :=
  {| dados_gerais_imoveis := []; pagina_atual := 1; shown := Page (document []);
     log := []; files := fs |}.

Definition run (fs : filesystem) : result unit * machine := script (inicio fs).

End Script.

(** ** Observations on a run *)

(** The URLs requested with [driver.get], in order. *)
Definition gets (es : list event) : list string :=
  flat_map (fun e => match e with EvGet u => [u] | _ => [] end) es.

(** How many times [driver.quit] was called. *)
Definition quits (es : list event) : nat :=
  List.length (filter (fun e => match e with EvQuit => true | _ => false end) es).

(** The paths written with [to_csv], in order. *)
Definition writes (es : list event) : list string :=
  flat_map (fun e => match e with EvToCsv p => [p] | _ => [] end) es.

(** The keys of the dictionary built at lines 131 to 134. *)
Definition campos : list string :=
  ["preco_anuncio"; "endereco"; "area_util_m2"; "quartos"; "suites"; "vagas"; "url"].

(** The four features of lines 125 to 128: the [title] searched for and the
    key the value is stored under. *)
Definition caracteristicas : list (string * string) :=
  [ ("Área útil", "area_util_m2"); ("Quartos", "quartos");
    ("Suítes", "suites"); ("Vagas", "vagas") ].

(** What [get_feature] returns when the features list is there. *)
Definition feature_em (ul : node) (feature_name : string) : string :=
  match find (ByAttr "li" "title" feature_name) ul with
  | Some t => PyStr.strip (text t)
  | None => "N/A"
  end.

(** The value of [href] on a tag. *)
Definition href_de (t : node) : option string :=
  match t with
  | Tag _ _ attrs _ => get_attr "href" attrs
  | NavigableString _ => None
  end.

(** The records a list of containers contributes when none of them stops
    the loop: one per container whose extraction succeeds. *)
Definition colher (l : list node) : list dict :=
  flat_map (fun c => match extrair c with Ok d => [d] | _ => [] end) l.

(** The containers the handler skips. *)
Definition pulados (l : list node) : list node :=
  filter (fun c => match extrair c with Raise AttributeError => true | _ => false end) l.

(** Machine reached at the head of the extraction of a page: the progress
    line, the navigation, the pause. *)
Definition apos_get (url : string) (m : machine) : machine :=
  emit (EvGet url) (emit (EvPrint (MsgNavegando (pagina_atual m))) m).

Definition apos_pausa (r : response) (url : string) (m : machine) : machine :=
  emit (EvSleep 4 8) (emit (EvPrint MsgPausa) (set_shown r (apos_get url m))).

(** Every page from index [p] up to the ceiling loads, holds at least one
    container, and none of its containers raises anything but the
    [AttributeError] the handler catches. *)
Definition paginas_sas (site : string -> response) (p : nat) : Prop :=
  forall i, p <= i -> i <= MAX_PAGINAS ->
    exists doc, site (url_da_pagina i) = Page doc
      /\ find_all q_item doc <> []
      /\ forall c, In c (find_all q_item doc) ->
           (exists d, extrair c = Ok d) \/ extrair c = Raise AttributeError.

(** Every listing page up to the ceiling loads and holds at least one
    container. *)
Definition paginas_nao_vazias (site : string -> response) : Prop :=
  forall i, 1 <= i -> i <= MAX_PAGINAS ->
    exists doc, site (url_da_pagina i) = Page doc /\ find_all q_item doc <> [].

(** What a run of the loop leaves behind, however it ends: [n] listing
    pages were requested, those of index [pagina_atual m] onwards, one
    after the other and never past the ceiling; the browser was not
    closed and no file was written; the records only grew, each with the
    seven keys. *)
Definition progresso (m m' : machine) (n : nat) : Prop :=
  n <= S MAX_PAGINAS - pagina_atual m
  /\ (exists es, log m' = (log m ++ es)%list
                 /\ gets es = map url_da_pagina (seq (pagina_atual m) n)
                 /\ quits es = 0 /\ writes es = [])
  /\ (exists novos, dados_gerais_imoveis m' = (dados_gerais_imoveis m ++ novos)%list
                    /\ Forall (fun d => map fst d = campos) novos)
  /\ files m' = files m.

(** Machine once the warm-up visit and its pause are over. *)
Definition aquecido (r : response) (m : machine) : machine :=
  emit (EvSleep 3 7)
    (set_shown r (emit (EvGet HOME_PAGE) (emit (EvPrint MsgAquecendo) m))).

(** Machine once the [finally] block has closed the browser. *)
Definition fechado (m : machine) : machine :=
  emit EvQuit (emit (EvPrint MsgFinalizando) m).

(** The file [to_csv] writes for the collected records. *)
Definition arquivo_de (ds : list dict) : csv_file :=
  {| csv_encoding := "utf-8-sig"; csv_index := false; csv_table := DataFrame_of ds |}.

(** Machine once part 5 has saved a non-empty collection. *)
Definition salvo (m : machine) : machine :=
  emit (EvPrint MsgDfHead)
    (emit (EvPrint MsgAmostra)
       (emit (EvPrint MsgSucesso)
          (emit (EvToCsv NOME_ARQUIVO_BRUTO)
             (set_files
                (write_file NOME_ARQUIVO_BRUTO (arquivo_de (dados_gerais_imoveis m))
                   (files m))
                (emit (EvPrint (MsgCriandoDataFrame
                                  (List.length (dados_gerais_imoveis m)))) m))))).

(** The browser traffic of a log: the requests and the pauses, in order. *)
Definition ritmo (es : list event) : list event :=
  filter (fun e => match e with EvGet _ | EvSleep _ _ => true | _ => false end) es.

(** A listing page requested and then waited on. *)
Definition visita (i : nat) : list event := [EvGet (url_da_pagina i); EvSleep 4 8].

(** The records of the listing pages [docs i] for [i] from [p], [n] pages
    long, page after page and in document order within a page. *)
Definition colheita (docs : nat -> soup) (p n : nat) : list dict :=
  flat_map (fun i => colher (find_all q_item (docs i))) (seq p n).

(** Whether a byte sequence starts with a white-space character of
    Python, in one, two or three bytes. *)
Definition comeca_com_espaco (l : list ascii) : bool :=
  match l with
  | [] => false
  | a :: r1 =>
      PyStr.isspace_ascii a
      || match r1 with
         | [] => false
         | b :: r2 =>
             PyStr.space2 a b
             || match r2 with
                | [] => false
                | c :: _ => PyStr.space3 a b c
                end
         end
  end.

(** The same on a reversed sequence: the last byte of the character
    comes first. *)
Definition comeca_com_espaco_rev (l : list ascii) : bool :=
  match l with
  | [] => false
  | a :: r1 =>
      PyStr.isspace_ascii a
      || match r1 with
         | [] => false
         | b :: r2 =>
             PyStr.space2 b a
             || match r2 with
                | [] => false
                | c :: _ => PyStr.space3 c b a
                end
         end
  end.

(** A text with no white space at either end. *)
Definition aparado (s : string) : Prop :=
  comeca_com_espaco (list_ascii_of_string s) = false
  /\ comeca_com_espaco_rev (rev (list_ascii_of_string s)) = false.

(** The keys whose values come from [.text.strip()] or are "N/A". *)
Definition campos_de_texto : list string :=
  ["preco_anuncio"; "endereco"; "area_util_m2"; "quartos"; "suites"; "vagas"].

(** ** Sample markup *)

Module Amostra.

Definition p_preco (t : string) : node :=
  Tag "p" ["property-list__price"] [] [NavigableString t].
Definition p_endereco (t : string) : node :=
  Tag "p" ["property-list__address"] [] [NavigableString t].
Definition a_link (href : string) : node :=
  Tag "a" [] [("href", href)] [NavigableString "Ver"].
Definition li (title t : string) : node :=
  Tag "li" [] [("title", title)] [NavigableString t].
Definition ul (items : list node) : node :=
  Tag "ul" ["property-list__features"] [] items.
Definition item (cs : list node) : node :=
  Tag "div" ["property-list__item"; "card"] [] cs.

(** A well-formed advertisement. *)
Definition completo : node :=
  item [ a_link "/imovel/1"; p_preco "  R$ 2.500 "; p_endereco "SQN 210, Asa Norte";
         ul [ li "Área útil" " 80 m² "; li "Quartos" "3"; li "Suítes" "1"; li "Vagas" "2" ] ].

(** No suites and no parking line. *)
Definition sem_suites : node :=
  item [ a_link "https://outro.example/imovel/2"; p_preco "R$ 1.200";
         p_endereco "Rua 12, Vicente Pires";
         ul [ li "Área útil" "45 m²"; li "Quartos" "1" ] ].

(** Price and address, but no anchor with [href]. *)
Definition sem_link : node :=
  item [ p_preco "R$ 900"; p_endereco "QNL 5"; ul [ li "Quartos" "1" ] ].

(** Price, address and link, but no features list. *)
Definition sem_ul : node :=
  item [ a_link "/imovel/3"; p_preco "R$ 900"; p_endereco "QNL 5" ].

(** No price element. *)
Definition sem_preco : node :=
  item [ a_link "/imovel/4"; p_endereco "QNL 5"; ul [] ].

Definition pagina (l : list node) : soup :=
  document [Tag "html" [] [] [Tag "body" [] [] l]].

Definition disco_vazio : filesystem := fun _ => None.

(** A file left by an earlier run. *)
Definition arquivo_antigo : csv_file :=
  {| csv_encoding := "utf-8"; csv_index := true;
     csv_table := {| columns := ["x"]; rows := [[Some "1"]] |} |}.

Definition disco_usado : filesystem :=
  write_file NOME_ARQUIVO_BRUTO arquivo_antigo disco_vazio.

(** Page 1 holds twenty well-formed advertisements, every other page none. *)
Definition site_duas_paginas (u : string) : response :=
  if String.eqb u URL_BASE then Page (pagina (repeat completo 20)) else Page (pagina []).

(** Every page holds the same two advertisements, one of them skipped. *)
Definition site_sem_fim (u : string) : response :=
  Page (pagina [completo; sem_preco]).

(** Every page holds an advertisement with no link between two good ones. *)
Definition site_sem_link (u : string) : response :=
  Page (pagina [completo; sem_link; completo]).

(** Page 1 is fine, the navigation to page 2 fails. *)
Definition site_queda (u : string) : response :=
  if String.eqb u (url_da_pagina 2) then NavError WebDriverException
  else Page (pagina [completo; sem_suites]).

(** The portal has nothing to show. *)
Definition site_vazio (u : string) : response := Page (pagina []).

End Amostra.

(** * Properties *)

(** ** Searching the tree *)

Lemma find_matches (q : criterion) (n t : node) :
  find q n = Some t -> matches q t = true.
Proof.
  unfold find, find_all.
  destruct (filter (matches q) (descendants n)) as [|x r] eqn:E; intros H;
    [discriminate|].
  injection H as ->.
  assert (In t (filter (matches q) (descendants n))) as Hin
      by (rewrite E; left; reflexivity).
  apply filter_In in Hin. tauto.
Qed.

Lemma find_link_href (c t : node) :
  find q_link c = Some t -> exists v, href_de t = Some v.
Proof.
  intros H. apply find_matches in H.
  destruct t as [s|nm cls attrs cs]; simpl in H; [discriminate|].
  apply andb_true_iff in H as [_ H].
  simpl. destruct (get_attr "href" attrs) as [v|]; [eauto|discriminate].
Qed.

(** ** One advertisement *)

(** The four searches decide the outcome of the extraction. *)
Lemma extrair_sem_preco (c : node) :
  find q_price c = None -> extrair c = Raise AttributeError.
Proof. intros H. unfold extrair. rewrite H. reflexivity. Qed.

Lemma extrair_sem_endereco (c p : node) :
  find q_price c = Some p -> find q_address c = None ->
  extrair c = Raise AttributeError.
Proof. intros Hp Ha. unfold extrair. rewrite Hp, Ha. reflexivity. Qed.

Lemma extrair_sem_link (c p a : node) :
  find q_price c = Some p -> find q_address c = Some a -> find q_link c = None ->
  extrair c = Raise TypeError.
Proof. intros Hp Ha Hl. unfold extrair. rewrite Hp, Ha, Hl. reflexivity. Qed.

Lemma extrair_sem_features (c p a l : node) :
  find q_price c = Some p -> find q_address c = Some a -> find q_link c = Some l ->
  find q_features c = None ->
  extrair c = Raise AttributeError.
Proof.
  intros Hp Ha Hl Hf.
  destruct (find_link_href c l Hl) as [v Hv].
  unfold extrair. rewrite Hp, Ha, Hl, Hf.
  destruct l as [s|nm cls attrs cs]; simpl in Hv; [discriminate|].
  simpl. rewrite Hv. reflexivity.
Qed.

Lemma extrair_completo (c p a l u : node) (v : string) :
  find q_price c = Some p -> find q_address c = Some a -> find q_link c = Some l ->
  href_de l = Some v -> find q_features c = Some u ->
  extrair c =
    Ok [ ("preco_anuncio", PyStr.strip (text p)); ("endereco", PyStr.strip (text a));
         ("area_util_m2", feature_em u "Área útil"); ("quartos", feature_em u "Quartos");
         ("suites", feature_em u "Suítes"); ("vagas", feature_em u "Vagas");
         ("url", url_completa v) ].
Proof.
  intros Hp Ha Hl Hv Hf.
  unfold extrair. rewrite Hp, Ha, Hl, Hf.
  destruct l as [s|nm cls attrs cs]; simpl in Hv; [discriminate|].
  simpl. rewrite Hv. simpl.
  unfold get_feature, feature_em. simpl.
  repeat match goal with
         | |- context [find ?q u] => destruct (find q u); simpl
         end; reflexivity.
Qed.

(** Extraction ends in a record with the seven keys, in [AttributeError]
    or in [TypeError]; nothing else. *)
Lemma extrair_cases (c : node) :
  (exists d, extrair c = Ok d /\ map fst d = campos)
  \/ extrair c = Raise AttributeError
  \/ extrair c = Raise TypeError.
Proof.
  destruct (find q_price c) as [p|] eqn:Hp;
    [|right; left; now apply extrair_sem_preco].
  destruct (find q_address c) as [a|] eqn:Ha;
    [|right; left; now apply (extrair_sem_endereco c p)].
  destruct (find q_link c) as [l|] eqn:Hl;
    [|right; right; now apply (extrair_sem_link c p a)].
  destruct (find q_features c) as [u|] eqn:Hf;
    [|right; left; now apply (extrair_sem_features c p a l)].
  destruct (find_link_href c l Hl) as [v Hv].
  left. eexists. split; [apply (extrair_completo c p a l u v); assumption|reflexivity].
Qed.

Lemma extrair_ok_campos (c : node) (d : dict) :
  extrair c = Ok d -> map fst d = campos.
Proof.
  intros H. destruct (extrair_cases c) as [[d' [H1 H2]]|[H1|H1]];
    rewrite H1 in H; [injection H as <-; exact H2|discriminate|discriminate].
Qed.

(** ** One turn of the [for] loop *)

Lemma processar_ok (c : node) (d : dict) (m : machine) :
  extrair c = Ok d ->
  processar_anuncio c m = (Ok tt, set_dados (dados_gerais_imoveis m ++ [d]) m).
Proof.
  intros H. unfold processar_anuncio, try_except_AttributeError, bind, lift, append_imovel.
  rewrite H. reflexivity.
Qed.

Lemma processar_pulado (c : node) (m : machine) :
  extrair c = Raise AttributeError ->
  processar_anuncio c m = (Ok tt, emit (EvPrint MsgAvisoPulado) m).
Proof.
  intros H. unfold processar_anuncio, try_except_AttributeError, bind, lift, print.
  rewrite H. reflexivity.
Qed.

Lemma processar_type_error (c : node) (m : machine) :
  extrair c = Raise TypeError ->
  processar_anuncio c m = (Raise TypeError, m).
Proof.
  intros H. unfold processar_anuncio, try_except_AttributeError, bind, lift.
  rewrite H. reflexivity.
Qed.

(** ** Reading the log *)

Lemma gets_app (a b : list event) : gets (a ++ b) = (gets a ++ gets b)%list.
Proof. unfold gets. apply flat_map_app. Qed.

Lemma writes_app (a b : list event) : writes (a ++ b) = (writes a ++ writes b)%list.
Proof. unfold writes. apply flat_map_app. Qed.

Lemma quits_app (a b : list event) : quits (a ++ b) = quits a + quits b.
Proof. unfold quits. rewrite filter_app, length_app. reflexivity. Qed.

(** ** The [for] loop over the containers of a page *)

(** Containers that raise nothing but [AttributeError] never stop the
    loop: the good ones are appended in document order, each of the others
    costs one warning, and nothing else in the machine moves. *)
Lemma for_each_colher (l : list node) :
  forall m,
    (forall c, In c l -> (exists d, extrair c = Ok d) \/ extrair c = Raise AttributeError) ->
    exists m',
      for_each processar_anuncio l m = (Ok tt, m')
      /\ dados_gerais_imoveis m' = (dados_gerais_imoveis m ++ colher l)%list
      /\ log m' = (log m ++ map (fun _ => EvPrint MsgAvisoPulado) (pulados l))%list
      /\ pagina_atual m' = pagina_atual m
      /\ files m' = files m
      /\ shown m' = shown m.
Proof.
  induction l as [|c l IH]; intros m H.
  - exists m. simpl. rewrite !app_nil_r. repeat split.
  - assert (Hl : forall c', In c' l ->
                   (exists d, extrair c' = Ok d) \/ extrair c' = Raise AttributeError)
      by (intros c' Hc'; apply H; right; exact Hc').
    destruct (H c (or_introl eq_refl)) as [[d Hd]|Hs].
    + destruct (IH (set_dados (dados_gerais_imoveis m ++ [d]) m) Hl)
        as (m' & Hr & Hdad & Hlog & Hpag & Hfil & Hsho).
      exists m'. cbn [for_each]. unfold bind at 1.
      rewrite (processar_ok c d m Hd), Hr.
      unfold colher, pulados in *. cbn [flat_map filter]. rewrite Hd.
      rewrite Hdad, Hlog, Hpag, Hfil, Hsho. cbn. rewrite <- !app_assoc.
      repeat split; auto.
    + destruct (IH (emit (EvPrint MsgAvisoPulado) m) Hl)
        as (m' & Hr & Hdad & Hlog & Hpag & Hfil & Hsho).
      exists m'. cbn [for_each]. unfold bind at 1.
      rewrite (processar_pulado c m Hs), Hr.
      unfold colher, pulados in *. cbn [flat_map filter]. rewrite Hs.
      rewrite Hdad, Hlog, Hpag, Hfil, Hsho. cbn. rewrite <- !app_assoc.
      repeat split; auto.
Qed.

(** A container that raises [TypeError] stops the loop wherever it stands
    in the list, and the exception leaves the loop. *)
Lemma for_each_type_error (l : list node) (c : node) :
  In c l -> extrair c = Raise TypeError ->
  forall m, exists m', for_each processar_anuncio l m = (Raise TypeError, m').
Proof.
  intros Hin Hc. induction l as [|x l IH]; [destruct Hin|]. intros m.
  cbn [for_each]. unfold bind at 1.
  destruct (extrair_cases x) as [[d [Hd _]]|[Hs|Ht]].
  - rewrite (processar_ok x d m Hd).
    destruct Hin as [->|Hin]; [congruence|]. apply (IH Hin).
  - rewrite (processar_pulado x m Hs).
    destruct Hin as [->|Hin]; [congruence|]. apply (IH Hin).
  - rewrite (processar_type_error x m Ht). eauto.
Qed.

(** What the loop does to the machine in every case. *)
Lemma for_each_efeito (l : list node) :
  forall m r m',
    for_each processar_anuncio l m = (r, m') ->
    (r = Ok tt \/ r = Raise TypeError)
    /\ (exists novos, dados_gerais_imoveis m' = (dados_gerais_imoveis m ++ novos)%list
                      /\ Forall (fun d => map fst d = campos) novos)
    /\ (exists es, log m' = (log m ++ es)%list
                   /\ gets es = [] /\ quits es = 0 /\ writes es = [])
    /\ pagina_atual m' = pagina_atual m
    /\ files m' = files m.
Proof.
  induction l as [|c l IH]; intros m r m' H.
  - cbn in H. injection H as <- <-.
    repeat split; auto; exists []; rewrite app_nil_r; auto.
  - cbn [for_each] in H. unfold bind at 1 in H.
    destruct (extrair_cases c) as [[d [Hd Hk]]|[Hs|Ht]].
    + rewrite (processar_ok c d m Hd) in H.
      destruct (IH _ _ _ H) as (Hr & (novos & Hn & Hwf) & (es & He & Hg) & Hp & Hf).
      repeat split; auto.
      * exists (d :: novos). cbn in Hn. rewrite Hn, <- app_assoc. auto.
      * exists es. auto.
    + rewrite (processar_pulado c m Hs) in H.
      destruct (IH _ _ _ H) as (Hr & (novos & Hn & Hwf) & (es & He & Hg & Hq & Hw) & Hp & Hf).
      repeat split; auto.
      * exists novos. auto.
      * exists (EvPrint MsgAvisoPulado :: es). cbn in He. rewrite He, <- app_assoc. auto.
    + rewrite (processar_type_error c m Ht) in H. injection H as <- <-.
      repeat split; auto; exists []; rewrite app_nil_r; auto.
Qed.

(** ** The [while] loop *)

Section Crawl.

Variable site : string -> response.

(** One unrolling of the loop, case by case. *)
Lemma crawl_loop_step (fuel : nat) (m : machine) :
  crawl_loop site (S fuel) m =
  if pagina_atual m <=? MAX_PAGINAS then
    let url := url_da_pagina (pagina_atual m) in
    match site url with
    | NavError e => (Raise e, apos_get url m)
    | SourceError e => (Raise e, apos_pausa (SourceError e) url m)
    | Page doc =>
        let m1 := apos_pausa (Page doc) url m in
        match find_all q_item doc with
        | [] => (Ok tt, emit (EvPrint MsgFimDaColeta) m1)
        | l =>
            match for_each processar_anuncio l
                    (emit (EvPrint (MsgEncontrados (List.length l))) m1) with
            | (Ok _, m2) => crawl_loop site fuel (set_pagina (pagina_atual m2 + 1) m2)
            | (Raise e, m2) => (Raise e, m2)
            | (OutOfFuel, m2) => (OutOfFuel, m2)
            end
        end
    end
  else (Ok tt, m).
Proof.
  cbn [crawl_loop].
  destruct (pagina_atual m <=? MAX_PAGINAS); [|reflexivity].
  unfold bind, print, driver_get, sleep_uniform, page_soup.
  fold (apos_get (url_da_pagina (pagina_atual m)) m).
  destruct (site (url_da_pagina (pagina_atual m))) as [e|e|doc] eqn:Hs;
    [reflexivity|reflexivity|].
  cbv beta iota zeta. cbn [shown set_shown emit].
  fold (apos_pausa (Page doc) (url_da_pagina (pagina_atual m)) m).
  destruct (find_all q_item doc) as [|c l]; reflexivity.
Qed.

Lemma progresso_parado (m m' : machine) (es : list event) :
  log m' = (log m ++ es)%list -> gets es = [] -> quits es = 0 -> writes es = [] ->
  dados_gerais_imoveis m' = dados_gerais_imoveis m -> files m' = files m ->
  progresso m m' 0.
Proof.
  intros Hl Hg Hq Hw Hd Hf. unfold progresso. repeat split.
  - lia.
  - exists es. auto.
  - exists []. rewrite app_nil_r. auto.
  - exact Hf.
Qed.

Lemma progresso_um (m m' : machine) (es : list event) :
  pagina_atual m <= MAX_PAGINAS ->
  log m' = (log m ++ es)%list ->
  gets es = [url_da_pagina (pagina_atual m)] -> quits es = 0 -> writes es = [] ->
  (exists novos, dados_gerais_imoveis m' = (dados_gerais_imoveis m ++ novos)%list
                 /\ Forall (fun d => map fst d = campos) novos) ->
  files m' = files m ->
  progresso m m' 1.
Proof.
  intros Hp Hl Hg Hq Hw Hd Hf. unfold progresso. repeat split.
  - lia.
  - exists es. auto.
  - exact Hd.
  - exact Hf.
Qed.

(** A page fully processed, then [n] more requests from the next index. *)
Lemma progresso_passo (m m2 m' : machine) (es : list event) (n : nat) :
  pagina_atual m <= MAX_PAGINAS ->
  log m2 = (log m ++ es)%list ->
  gets es = [url_da_pagina (pagina_atual m)] -> quits es = 0 -> writes es = [] ->
  (exists novos, dados_gerais_imoveis m2 = (dados_gerais_imoveis m ++ novos)%list
                 /\ Forall (fun d => map fst d = campos) novos) ->
  files m2 = files m ->
  pagina_atual m2 = pagina_atual m + 1 ->
  progresso m2 m' n ->
  progresso m m' (S n).
Proof.
  intros Hp Hl Hg Hq Hw (nv & Hd & Hwf) Hf Hpg
         (Hn & (es' & Hl' & Hg' & Hq' & Hw') & (nv' & Hd' & Hwf') & Hf').
  unfold progresso. repeat split.
  - lia.
  - exists (es ++ es')%list. rewrite Hl', Hl, <- app_assoc.
    rewrite gets_app, quits_app, writes_app, Hg, Hg', Hq, Hq', Hw, Hw', Hpg.
    rewrite Nat.add_1_r. repeat split.
  - exists (nv ++ nv')%list. rewrite Hd', Hd, <- app_assoc.
    split; [reflexivity|]. apply Forall_app. auto.
  - congruence.
Qed.

Lemma log_apos_get (url : string) (m : machine) :
  log (apos_get url m)
  = (log m ++ [EvPrint (MsgNavegando (pagina_atual m)); EvGet url])%list.
Proof. cbn. rewrite <- app_assoc. reflexivity. Qed.

Lemma log_apos_pausa (r : response) (url : string) (m : machine) :
  log (apos_pausa r url m)
  = (log m ++ [EvPrint (MsgNavegando (pagina_atual m)); EvGet url;
               EvPrint MsgPausa; EvSleep 4 8])%list.
Proof. cbn. rewrite <- !app_assoc. reflexivity. Qed.

(** The machine after the containers of a page have been gone through,
    seen from the head of the loop. *)
Lemma pagina_processada (m m2 : machine) (doc : soup) (l : list node) (r : result unit) :
  for_each processar_anuncio l
    (emit (EvPrint (MsgEncontrados (List.length l)))
       (apos_pausa (Page doc) (url_da_pagina (pagina_atual m)) m)) = (r, m2) ->
  (r = Ok tt \/ r = Raise TypeError)
  /\ (exists es, log m2 = (log m ++ es)%list
                 /\ gets es = [url_da_pagina (pagina_atual m)]
                 /\ quits es = 0 /\ writes es = [])
  /\ (exists novos, dados_gerais_imoveis m2 = (dados_gerais_imoveis m ++ novos)%list
                    /\ Forall (fun d => map fst d = campos) novos)
  /\ files m2 = files m
  /\ pagina_atual m2 = pagina_atual m.
Proof.
  intros H.
  destruct (for_each_efeito _ _ _ _ H)
    as (Hr & Hd & (es & Hl & Hg & Hq & Hw) & Hp & Hf).
  repeat split; auto.
  exists ([EvPrint (MsgNavegando (pagina_atual m));
           EvGet (url_da_pagina (pagina_atual m));
           EvPrint MsgPausa; EvSleep 4 8;
           EvPrint (MsgEncontrados (List.length l))] ++ es)%list.
  rewrite Hl. cbn [log emit]. rewrite log_apos_pausa, <- !app_assoc.
  rewrite gets_app, quits_app, writes_app, Hg, Hq, Hw. repeat split.
Qed.

Lemma crawl_loop_progresso (fuel : nat) :
  forall m r m', crawl_loop site fuel m = (r, m') -> exists n, progresso m m' n.
Proof.
  induction fuel as [|fuel IH]; intros m r m' H.
  - cbn in H. injection H as <- <-. exists 0.
    apply (progresso_parado m m []); auto using app_nil_r.
  - rewrite crawl_loop_step in H.
    destruct (pagina_atual m <=? MAX_PAGINAS) eqn:Hle.
    + apply Nat.leb_le in Hle. cbv zeta in H.
      destruct (site (url_da_pagina (pagina_atual m))) as [e|e|doc].
      * injection H as <- <-. exists 1.
        eapply progresso_um; [exact Hle|apply log_apos_get| | | | |]; try reflexivity.
        exists []. rewrite app_nil_r. auto.
      * injection H as <- <-. exists 1.
        eapply progresso_um; [exact Hle|apply log_apos_pausa| | | | |]; try reflexivity.
        exists []. rewrite app_nil_r. auto.
      * destruct (find_all q_item doc) as [|c l].
        { injection H as <- <-. exists 1.
          eapply progresso_um with
            (es := [EvPrint (MsgNavegando (pagina_atual m));
                    EvGet (url_da_pagina (pagina_atual m));
                    EvPrint MsgPausa; EvSleep 4 8; EvPrint MsgFimDaColeta]);
            [exact Hle| | | | | |]; try reflexivity.
          - cbn [log emit]. rewrite log_apos_pausa, <- app_assoc. reflexivity.
          - exists []. rewrite app_nil_r. auto. }
        destruct (for_each processar_anuncio (c :: l) _) as [r2 m2] eqn:Hfor.
        destruct (pagina_processada _ _ _ _ _ Hfor)
          as (Hr & (es & Hl & Hg & Hq & Hw) & Hd & Hf & Hp).
        destruct r2 as [[]|e|].
        { destruct (IH _ _ _ H) as [n Hn]. exists (S n).
          eapply (progresso_passo m (set_pagina (pagina_atual m2 + 1) m2));
            eauto. cbn. lia. }
        { injection H as <- <-. exists 1. eapply progresso_um; eauto. }
        { injection H as <- <-. exists 1. eapply progresso_um; eauto. }
    + injection H as <- <-. exists 0.
      apply (progresso_parado m m []); auto using app_nil_r.
Qed.

(** The loop is bounded: unrolled once more than there are pages left,
    it has run to its end. *)
Lemma crawl_loop_termina (fuel : nat) :
  forall m r m',
    S MAX_PAGINAS - pagina_atual m < fuel ->
    crawl_loop site fuel m = (r, m') -> r <> OutOfFuel.
Proof.
  induction fuel as [|fuel IH]; intros m r m' Hfuel H; [lia|].
  rewrite crawl_loop_step in H.
  destruct (pagina_atual m <=? MAX_PAGINAS) eqn:Hle.
  - apply Nat.leb_le in Hle. cbv zeta in H.
    destruct (site (url_da_pagina (pagina_atual m))) as [e|e|doc];
      [injection H as <- <-; discriminate|injection H as <- <-; discriminate|].
    destruct (find_all q_item doc) as [|c l];
      [injection H as <- <-; discriminate|].
    destruct (for_each processar_anuncio (c :: l) _) as [r2 m2] eqn:Hfor.
    destruct (pagina_processada _ _ _ _ _ Hfor) as (Hr & _ & _ & _ & Hp).
    destruct r2 as [[]|e|].
    + eapply IH; [|exact H]. cbn [pagina_atual set_pagina]. lia.
    + injection H as <- <-. discriminate.
    + destruct Hr; discriminate.
  - injection H as <- <-. discriminate.
Qed.

(** More fuel changes nothing once the loop has run to its end. *)
Lemma crawl_loop_fuel (fuel : nat) :
  forall m r m' extra,
    crawl_loop site fuel m = (r, m') -> r <> OutOfFuel ->
    crawl_loop site (fuel + extra) m = (r, m').
Proof.
  induction fuel as [|fuel IH]; intros m r m' extra H Hr.
  - cbn in H. injection H as <- <-. congruence.
  - cbn [Nat.add]. rewrite crawl_loop_step in *.
    destruct (pagina_atual m <=? MAX_PAGINAS); [|exact H].
    cbv zeta in *.
    destruct (site (url_da_pagina (pagina_atual m))) as [e|e|doc]; try exact H.
    destruct (find_all q_item doc) as [|c l]; [exact H|].
    destruct (for_each processar_anuncio (c :: l) _) as [[[]|e|] m2]; try exact H.
    apply IH; assumption.
Qed.

(** An empty page stops the loop on the spot. *)
Lemma crawl_loop_pagina_vazia (fuel : nat) (m : machine) (doc : soup) :
  pagina_atual m <= MAX_PAGINAS ->
  site (url_da_pagina (pagina_atual m)) = Page doc ->
  find_all q_item doc = [] ->
  crawl_loop site (S fuel) m
  = (Ok tt, emit (EvPrint MsgFimDaColeta)
              (apos_pausa (Page doc) (url_da_pagina (pagina_atual m)) m)).
Proof.
  intros Hle Hs He. rewrite crawl_loop_step.
  apply Nat.leb_le in Hle. rewrite Hle. cbv zeta. rewrite Hs, He. reflexivity.
Qed.

(** No page beyond an empty one is requested. *)
Lemma crawl_loop_nada_depois (fuel : nat) :
  forall m r m' k doc es,
    pagina_atual m <= k ->
    site (url_da_pagina k) = Page doc -> find_all q_item doc = [] ->
    crawl_loop site fuel m = (r, m') ->
    log m' = (log m ++ es)%list ->
    List.length (gets es) <= S k - pagina_atual m.
Proof.
  induction fuel as [|fuel IH]; intros m r m' k doc es Hk Hs He H Hlog.
  - cbn in H. injection H as <- <-.
    rewrite <- (app_nil_r (log m)) in Hlog at 1.
    apply app_inv_head in Hlog. subst es. cbn [gets flat_map app List.length]. lia.
  - rewrite crawl_loop_step in H.
    destruct (pagina_atual m <=? MAX_PAGINAS) eqn:Hle.
    + cbv zeta in H.
      destruct (site (url_da_pagina (pagina_atual m))) as [e|e|doc'] eqn:Hs'.
      * injection H as <- <-. rewrite log_apos_get in Hlog.
        apply app_inv_head in Hlog. subst es. cbn [gets flat_map app List.length]. lia.
      * injection H as <- <-. rewrite log_apos_pausa in Hlog.
        apply app_inv_head in Hlog. subst es. cbn [gets flat_map app List.length]. lia.
      * destruct (find_all q_item doc') as [|c l] eqn:He'.
        { injection H as <- <-. cbn [log emit] in Hlog.
          rewrite log_apos_pausa, <- app_assoc in Hlog.
          apply app_inv_head in Hlog. subst es. cbn [gets flat_map app List.length]. lia. }
        destruct (for_each processar_anuncio (c :: l) _) as [r2 m2] eqn:Hfor.
        destruct (pagina_processada _ _ _ _ _ Hfor)
          as (Hr & (es1 & Hl1 & Hg1 & _) & _ & _ & Hp).
        assert (Hlt : pagina_atual m < k).
        { destruct (Nat.eq_dec (pagina_atual m) k) as [Heq|]; [|lia].
          rewrite Heq in Hs'. congruence. }
        destruct r2 as [[]|e|].
        { destruct (crawl_loop_progresso _ _ _ _ H) as (n & _ & (es2 & Hl2 & _) & _).
          cbn [log set_pagina] in Hl2.
          assert (Hes : es = (es1 ++ es2)%list).
          { rewrite Hl2, Hl1, <- app_assoc in Hlog.
            apply app_inv_head in Hlog. auto. }
          assert (Hk2 : pagina_atual (set_pagina (pagina_atual m2 + 1) m2) <= k)
            by (cbn [pagina_atual set_pagina]; lia).
          specialize (IH _ _ _ k doc es2 Hk2 Hs He H Hl2).
          cbn [pagina_atual set_pagina] in IH.
          rewrite Hes, gets_app, length_app, Hg1. cbn [List.length]. lia. }
        { injection H as <- <-. rewrite Hl1 in Hlog.
          apply app_inv_head in Hlog. subst es. rewrite Hg1. cbn [List.length]. lia. }
        { injection H as <- <-. rewrite Hl1 in Hlog.
          apply app_inv_head in Hlog. subst es. rewrite Hg1. cbn [List.length]. lia. }
    + injection H as <- <-.
      rewrite <- (app_nil_r (log m)) in Hlog at 1.
      apply app_inv_head in Hlog. subst es. cbn [gets flat_map app List.length]. lia.
Qed.

Lemma paginas_sas_seguinte (p : nat) :
  paginas_sas site p -> paginas_sas site (p + 1).
Proof. intros H i Hi. apply H. lia. Qed.

(** When every page left is sound the loop requests each of them and
    stops at the ceiling. *)
Lemma crawl_loop_sas (fuel : nat) :
  forall m,
    paginas_sas site (pagina_atual m) ->
    S MAX_PAGINAS - pagina_atual m < fuel ->
    exists m' es,
      crawl_loop site fuel m = (Ok tt, m')
      /\ log m' = (log m ++ es)%list
      /\ gets es = map url_da_pagina
                     (seq (pagina_atual m) (S MAX_PAGINAS - pagina_atual m)).
Proof.
  induction fuel as [|fuel IH]; intros m Hsas Hfuel; [lia|].
  rewrite crawl_loop_step.
  destruct (pagina_atual m <=? MAX_PAGINAS) eqn:Hle.
  - apply Nat.leb_le in Hle. cbv zeta.
    destruct (Hsas (pagina_atual m) (le_n _) Hle) as (doc & Hs & Hne & Hcs).
    rewrite Hs.
    destruct (find_all q_item doc) as [|c l] eqn:He; [congruence|].
    destruct (for_each_colher (c :: l)
                (emit (EvPrint (MsgEncontrados (List.length (c :: l))))
                   (apos_pausa (Page doc) (url_da_pagina (pagina_atual m)) m)) Hcs)
      as (m2 & Hfor & _).
    rewrite Hfor.
    destruct (pagina_processada _ _ _ _ _ Hfor)
      as (_ & (es1 & Hl1 & Hg1 & _) & _ & _ & Hp).
    destruct (IH (set_pagina (pagina_atual m2 + 1) m2)) as (m' & es2 & Hr & Hl2 & Hg2).
    + cbn [pagina_atual set_pagina]. rewrite Hp. now apply paginas_sas_seguinte.
    + cbn [pagina_atual set_pagina]. lia.
    + exists m', (es1 ++ es2)%list. split; [exact Hr|].
      cbn [log pagina_atual set_pagina] in Hl2, Hg2.
      split; [rewrite Hl2, Hl1, <- app_assoc; reflexivity|].
      rewrite gets_app, Hg1, Hg2, Hp.
      replace (S MAX_PAGINAS - pagina_atual m)
        with (S (S MAX_PAGINAS - (pagina_atual m + 1))) by lia.
      rewrite Nat.add_1_r. reflexivity.
  - apply Nat.leb_gt in Hle. exists m, []. rewrite app_nil_r.
    replace (S MAX_PAGINAS - pagina_atual m) with 0 by lia. auto.
Qed.

(** ** Warm-up, loop and [finally] *)

Lemma coleta_step (m : machine) :
  coleta site m =
  match site HOME_PAGE with
  | NavError e =>
      (Raise e, fechado (emit (EvGet HOME_PAGE) (emit (EvPrint MsgAquecendo) m)))
  | r => let (res, m') := crawl_loop site (S MAX_PAGINAS) (aquecido r m) in
         (res, fechado m')
  end.
Proof.
  unfold coleta, try_finally, bind, print, driver_get, driver_quit, sleep_uniform.
  destruct (site HOME_PAGE) as [e|e|doc]; [reflexivity| |];
    unfold aquecido; cbv beta iota zeta;
    match goal with
    | |- context [crawl_loop site ?f ?x] =>
        destruct (crawl_loop site f x) as [[[]|e'|] m']
    end; reflexivity.
Qed.

(** The run from the end of the warm-up to the end of [finally]. *)
Lemma coleta_apos_aquecer (fs : filesystem) (r0 : response) (r : result unit) (m1 : machine) :
  crawl_loop site (S MAX_PAGINAS) (aquecido r0 (inicio fs)) = (r, m1) ->
  r <> OutOfFuel
  /\ files (fechado m1) = fs
  /\ Forall (fun d => map fst d = campos) (dados_gerais_imoveis (fechado m1))
  /\ quits (log (fechado m1)) = 1
  /\ writes (log (fechado m1)) = []
  /\ (exists n, n <= MAX_PAGINAS
                /\ gets (log (fechado m1)) = HOME_PAGE :: map url_da_pagina (seq 1 n))
  /\ (exists pre, log (fechado m1) = (pre ++ [EvPrint MsgFinalizando; EvQuit])%list
                  /\ quits pre = 0).
Proof.
  intros H.
  assert (Hr : r <> OutOfFuel).
  { eapply crawl_loop_termina; [|exact H].
    cbn [pagina_atual aquecido emit set_shown inicio]. lia. }
  destruct (crawl_loop_progresso _ _ _ _ H)
    as (n & Hn & (es & Hl & Hg & Hq & Hw) & (nv & Hd & Hwf) & Hf).
  cbn [pagina_atual dados_gerais_imoveis files aquecido emit set_shown inicio] in *.
  change (log (aquecido r0 (inicio fs)))
    with [EvPrint MsgAquecendo; EvGet HOME_PAGE; EvSleep 3 7] in Hl.
  assert (Hlf : log (fechado m1)
                = (([EvPrint MsgAquecendo; EvGet HOME_PAGE; EvSleep 3 7] ++ es)
                     ++ [EvPrint MsgFinalizando; EvQuit])%list).
  { cbn [log fechado emit]. rewrite Hl, <- !app_assoc. reflexivity. }
  split; [exact Hr|]. split; [exact Hf|].
  split; [cbn [dados_gerais_imoveis fechado emit]; rewrite Hd; exact Hwf|].
  split; [rewrite Hlf, !quits_app, Hq; reflexivity|].
  split; [rewrite Hlf, !writes_app, Hw; reflexivity|].
  split.
  - exists n. split; [lia|].
    rewrite Hlf, !gets_app, Hg. cbn [gets flat_map app]. rewrite app_nil_r. reflexivity.
  - eexists. split; [exact Hlf|]. rewrite quits_app, Hq. reflexivity.
Qed.

Lemma coleta_resumo (fs : filesystem) (r : result unit) (m' : machine) :
  coleta site (inicio fs) = (r, m') ->
  r <> OutOfFuel
  /\ files m' = fs
  /\ Forall (fun d => map fst d = campos) (dados_gerais_imoveis m')
  /\ quits (log m') = 1
  /\ writes (log m') = []
  /\ (exists n, n <= MAX_PAGINAS
                /\ gets (log m') = HOME_PAGE :: map url_da_pagina (seq 1 n))
  /\ (exists pre, log m' = (pre ++ [EvPrint MsgFinalizando; EvQuit])%list
                  /\ quits pre = 0).
Proof.
  intros H. rewrite coleta_step in H.
  destruct (site HOME_PAGE) as [e|e|doc].
  - injection H as <- <-.
    repeat split; try discriminate; try constructor.
    + exists 0. split; [lia|reflexivity].
    + exists [EvPrint MsgAquecendo; EvGet HOME_PAGE]. split; reflexivity.
  - destruct (crawl_loop site _ _) as [res m1] eqn:Hc. injection H as <- <-.
    exact (coleta_apos_aquecer fs _ _ _ Hc).
  - destruct (crawl_loop site _ _) as [res m1] eqn:Hc. injection H as <- <-.
    exact (coleta_apos_aquecer fs _ _ _ Hc).
Qed.

(** Part 5 runs only when the [try] block ended normally: an uncaught
    exception ends the script before line 153. *)
Lemma script_step (m : machine) :
  script site m =
  match coleta site m with
  | (Ok _, m') => salvar m'
  | (Raise e, m') => (Raise e, m')
  | (OutOfFuel, m') => (OutOfFuel, m')
  end.
Proof. reflexivity. Qed.

End Crawl.

(** ** Part 5: the data frame and the file *)

Lemma salvar_vazio (m : machine) :
  dados_gerais_imoveis m = [] ->
  salvar m = (Ok tt, emit (EvPrint MsgNenhumDado) m).
Proof. intros H. unfold salvar. rewrite H. reflexivity. Qed.

Lemma salvar_dados (m : machine) :
  dados_gerais_imoveis m <> [] -> salvar m = (Ok tt, salvo m).
Proof.
  intros H. unfold salvar.
  destruct (dados_gerais_imoveis m) as [|d ds] eqn:Hd; [congruence|].
  unfold salvo, arquivo_de. rewrite Hd. reflexivity.
Qed.

Lemma linha_de_campos (d : dict) :
  map fst d = campos ->
  map (fun c => lookup c d) campos = map (fun kv => Some (snd kv)) d.
Proof.
  intros H. unfold campos in H.
  repeat (destruct d as [|[? ?] d]; [discriminate|]; cbn [map fst] in H;
          injection H as -> H).
  destruct d; [|discriminate]. reflexivity.
Qed.

Lemma colunas_de_campos (ds : list dict) :
  Forall (fun d => map fst d = campos) ds ->
  fold_left (fun cols d => fold_left add_column (map fst d) cols) ds campos = campos.
Proof.
  induction 1 as [|d ds Hd _ IH]; [reflexivity|].
  cbn [fold_left]. rewrite Hd. exact IH.
Qed.

(** Records that all carry the seven keys make a frame with those seven
    columns, in that order, one full row per record. *)
Lemma DataFrame_of_campos (ds : list dict) :
  ds <> [] ->
  Forall (fun d => map fst d = campos) ds ->
  DataFrame_of ds
  = {| columns := campos;
       rows := map (fun d => map (fun kv => Some (snd kv)) d) ds |}.
Proof.
  intros Hne Hwf. unfold DataFrame_of.
  assert (Hc : fold_left (fun cols d => fold_left add_column (map fst d) cols) ds []
               = campos).
  { destruct ds as [|d ds]; [congruence|].
    inversion Hwf as [|? ? Hd Hds]; subst.
    cbn [fold_left]. rewrite Hd. apply (colunas_de_campos ds Hds). }
  rewrite Hc. f_equal.
  apply map_ext_in. intros d Hin.
  rewrite Forall_forall in Hwf. apply linha_de_campos, Hwf, Hin.
Qed.

Lemma log_salvo (m : machine) :
  log (salvo m)
  = (log m ++ [EvPrint (MsgCriandoDataFrame (List.length (dados_gerais_imoveis m)));
               EvToCsv NOME_ARQUIVO_BRUTO; EvPrint MsgSucesso; EvPrint MsgAmostra;
               EvPrint MsgDfHead])%list.
Proof. cbn. rewrite <- !app_assoc. reflexivity. Qed.

(** ** The whole run *)

(** The three ways a run ends: nothing collected, a file written, or an
    exception that skips part 5. *)
Lemma run_cases (site : string -> response) (fs : filesystem) :
  exists r1 m1,
    coleta site (inicio fs) = (r1, m1)
    /\ ((r1 = Ok tt /\ dados_gerais_imoveis m1 = []
         /\ run site fs = (Ok tt, emit (EvPrint MsgNenhumDado) m1))
        \/ (r1 = Ok tt /\ dados_gerais_imoveis m1 <> []
            /\ run site fs = (Ok tt, salvo m1))
        \/ (exists e, r1 = Raise e /\ run site fs = (Raise e, m1))).
Proof.
  destruct (coleta site (inicio fs)) as [r1 m1] eqn:Hc.
  exists r1, m1. split; [reflexivity|].
  destruct (coleta_resumo site fs r1 m1 Hc) as (Hr & _).
  unfold run. rewrite script_step, Hc.
  destruct r1 as [[]|e|]; [|right; right; eauto|congruence].
  destruct (dados_gerais_imoveis m1) as [|d ds] eqn:Hd.
  - left. rewrite (salvar_vazio m1 Hd). auto.
  - right; left. rewrite (salvar_dados m1) by congruence.
    repeat split; congruence.
Qed.

(** Part 5 adds no navigation and does not touch the browser. *)
Lemma run_log (site : string -> response) (fs : filesystem) :
  exists post,
    log (snd (run site fs)) = (log (snd (coleta site (inicio fs))) ++ post)%list
    /\ gets post = [] /\ quits post = 0.
Proof.
  destruct (run_cases site fs) as (r1 & m1 & Hc & [(_ & _ & Hr)|[(_ & _ & Hr)|(e & _ & Hr)]]);
    rewrite Hc, Hr; cbn [snd].
  - exists [EvPrint MsgNenhumDado]. auto.
  - eexists. split; [apply log_salvo|]. auto.
  - exists []. rewrite app_nil_r. auto.
Qed.

Lemma run_gets (site : string -> response) (fs : filesystem) :
  exists n, n <= MAX_PAGINAS
    /\ gets (log (snd (run site fs))) = HOME_PAGE :: map url_da_pagina (seq 1 n).
Proof.
  destruct (run_log site fs) as (post & Hl & Hg & _).
  destruct (coleta site (inicio fs)) as [r1 m1] eqn:Hc.
  destruct (coleta_resumo site fs r1 m1 Hc) as (_ & _ & _ & _ & _ & (n & Hn & Hgc) & _).
  exists n. split; [exact Hn|].
  rewrite Hl, gets_app, Hg, app_nil_r. exact Hgc.
Qed.

(** * The claims *)

(** C7. A link that starts with "/" becomes the home page without its
    trailing slash followed by the link; any other link is kept as it is;
    the [url] field of every record is the link of the container's first
    anchor with [href], normalised that way.  With the home page
    "https://example.com/" the link "/anuncio/123" becomes
    "https://example.com/anuncio/123". *)
Theorem C7_url_normalization :
  HOME_PAGE = "https://www.dfimoveis.com.br" ++ "/"
  /\ (forall resto,
        url_completa (String "/" resto)
        = "https://www.dfimoveis.com.br" ++ String "/" resto)
  /\ (forall link, PyStr.startswith "/" link = false -> url_completa link = link)
  /\ url_completa_de "https://example.com/" "/anuncio/123"
     = "https://example.com/anuncio/123"
  /\ (forall c d, extrair c = Ok d ->
        exists t link, find q_link c = Some t /\ href_de t = Some link
                       /\ lookup "url" d = Some (url_completa link)).
Proof.
  split; [reflexivity|]. split; [intros resto; reflexivity|].
  split; [intros link H; unfold url_completa, url_completa_de; rewrite H; reflexivity|].
  split; [reflexivity|].
  intros c d H.
  destruct (find q_price c) as [p|] eqn:Hp;
    [|rewrite (extrair_sem_preco c Hp) in H; discriminate].
  destruct (find q_address c) as [a|] eqn:Ha;
    [|rewrite (extrair_sem_endereco c p Hp Ha) in H; discriminate].
  destruct (find q_link c) as [l|] eqn:Hl;
    [|rewrite (extrair_sem_link c p a Hp Ha Hl) in H; discriminate].
  destruct (find q_features c) as [u|] eqn:Hf;
    [|rewrite (extrair_sem_features c p a l Hp Ha Hl Hf) in H; discriminate].
  destruct (find_link_href c l Hl) as [v Hv].
  rewrite (extrair_completo c p a l u v Hp Ha Hl Hv Hf) in H. injection H as <-.
  exists l, v. repeat split; auto.
Qed.

Lemma C7_witness :
  PyStr.startswith "/" "https://outro.example/imovel/2" = false
  /\ url_completa "https://outro.example/imovel/2" = "https://outro.example/imovel/2"
  /\ exists t link,
       find q_link Amostra.completo = Some t /\ href_de t = Some link
       /\ lookup "url" [ ("preco_anuncio", "R$ 2.500"); ("endereco", "SQN 210, Asa Norte");
                         ("area_util_m2", "80 m²"); ("quartos", "3"); ("suites", "1");
                         ("vagas", "2"); ("url", "https://www.dfimoveis.com.br/imovel/1") ]
          = Some (url_completa link).
Proof.
  split; [reflexivity|].
  split.
  - apply (proj1 (proj2 (proj2 C7_url_normalization))). reflexivity.
  - apply (proj2 (proj2 (proj2 (proj2 C7_url_normalization))) Amostra.completo).
    vm_compute. reflexivity.
Defined.

(** C9. A container with a price element and an address element but no
    anchor carrying [href] makes the link lookup subscript [None]: the
    extraction raises [TypeError], the handler of the [for] loop, which
    catches [AttributeError] only, lets it through, and it leaves the
    [for] loop, the [while] loop and the run; the crawl is aborted, not
    just the container skipped. *)
Theorem C9_missing_link_raises_type_error (c p a : node) :
  find q_price c = Some p -> find q_address c = Some a -> find q_link c = None ->
  extrair c = Raise TypeError
  /\ (forall m, processar_anuncio c m = (Raise TypeError, m))
  /\ (forall l m, In c l ->
        exists m', for_each processar_anuncio l m = (Raise TypeError, m'))
  /\ (forall site fuel m doc,
        pagina_atual m <= MAX_PAGINAS ->
        site (url_da_pagina (pagina_atual m)) = Page doc ->
        In c (find_all q_item doc) ->
        exists m', crawl_loop site (S fuel) m = (Raise TypeError, m'))
  /\ (forall site fs doc,
        (forall e, site HOME_PAGE <> NavError e) ->
        site URL_BASE = Page doc ->
        In c (find_all q_item doc) ->
        exists m', run site fs = (Raise TypeError, m')
                   /\ files m' = fs /\ writes (log m') = []).
Proof.
  intros Hp Ha Hl.
  pose proof (extrair_sem_link c p a Hp Ha Hl) as Hx.
  assert (Hloop : forall site fuel m doc,
             pagina_atual m <= MAX_PAGINAS ->
             site (url_da_pagina (pagina_atual m)) = Page doc ->
             In c (find_all q_item doc) ->
             exists m', crawl_loop site (S fuel) m = (Raise TypeError, m')).
  { intros site fuel m doc Hle Hs Hin.
    rewrite crawl_loop_step. apply Nat.leb_le in Hle. rewrite Hle. cbv zeta. rewrite Hs.
    destruct (find_all q_item doc) as [|x l] eqn:He; [destruct Hin|].
    destruct (for_each_type_error (x :: l) c Hin Hx
                (emit (EvPrint (MsgEncontrados (List.length (x :: l))))
                   (apos_pausa (Page doc) (url_da_pagina (pagina_atual m)) m)))
      as [m' Hm'].
    rewrite Hm'. eauto. }
  split; [exact Hx|].
  split; [intros m; now apply processar_type_error|].
  split; [intros l m Hin; now apply (for_each_type_error l c)|].
  split; [exact Hloop|].
  intros site fs doc Hhome Hs Hin.
  destruct (run_cases site fs) as (r1 & m1 & Hc & Hrun).
  destruct (coleta_resumo site fs r1 m1 Hc) as (_ & Hf & _ & _ & Hw & _).
  assert (Hr1 : r1 = Raise TypeError).
  { rewrite coleta_step in Hc.
    destruct (site HOME_PAGE) as [e|e|d0] eqn:Hh; [destruct (Hhome e); reflexivity| |].
    - destruct (Hloop site MAX_PAGINAS (aquecido (SourceError e) (inicio fs)) doc)
        as [m' Hm']; [cbn; unfold MAX_PAGINAS; lia|exact Hs|exact Hin|].
      rewrite Hm' in Hc. congruence.
    - destruct (Hloop site MAX_PAGINAS (aquecido (Page d0) (inicio fs)) doc)
        as [m' Hm']; [cbn; unfold MAX_PAGINAS; lia|exact Hs|exact Hin|].
      rewrite Hm' in Hc. congruence. }
  exists m1.
  destruct Hrun as [(H1 & _)|[(H1 & _)|(e & H1 & Hrun)]]; try congruence.
  rewrite Hrun. repeat split; auto. congruence.
Qed.

Lemma C9_witness :
  extrair Amostra.sem_link = Raise TypeError
  /\ exists m', run Amostra.site_sem_link Amostra.disco_vazio = (Raise TypeError, m')
                /\ files m' = Amostra.disco_vazio /\ writes (log m') = [].
Proof.
  pose proof (C9_missing_link_raises_type_error Amostra.sem_link
                (Amostra.p_preco "R$ 900") (Amostra.p_endereco "QNL 5")
                eq_refl eq_refl eq_refl) as (H1 & _ & _ & _ & H5).
  split; [exact H1|].
  apply (H5 Amostra.site_sem_link Amostra.disco_vazio
           (Amostra.pagina [Amostra.completo; Amostra.sem_link; Amostra.completo])).
  - intros e. discriminate.
  - reflexivity.
  - vm_compute. right. left. reflexivity.
Defined.

(** C10. A container whose features list (the [ul]) is absent, although
    price, address and link are there, makes [get_feature] call [find] on
    [None]: the extraction raises [AttributeError], the handler prints the
    warning and the container adds no record at all, where one with the
    four features set to "N/A" could have been expected. *)
Theorem C10_missing_features_list_skips (c p a l : node) :
  find q_price c = Some p -> find q_address c = Some a -> find q_link c = Some l ->
  find q_features c = None ->
  get_feature (find q_features c) "Área útil" = Raise AttributeError
  /\ extrair c = Raise AttributeError
  /\ forall m,
       processar_anuncio c m = (Ok tt, emit (EvPrint MsgAvisoPulado) m)
       /\ dados_gerais_imoveis (snd (processar_anuncio c m)) = dados_gerais_imoveis m
       /\ log (snd (processar_anuncio c m)) = (log m ++ [EvPrint MsgAvisoPulado])%list.
Proof.
  intros Hp Ha Hl Hf.
  pose proof (extrair_sem_features c p a l Hp Ha Hl Hf) as Hx.
  split; [rewrite Hf; reflexivity|]. split; [exact Hx|].
  intros m. rewrite (processar_pulado c m Hx). repeat split.
Qed.

Lemma C10_witness :
  extrair Amostra.sem_ul = Raise AttributeError
  /\ processar_anuncio Amostra.sem_ul (inicio Amostra.disco_vazio)
     = (Ok tt, emit (EvPrint MsgAvisoPulado) (inicio Amostra.disco_vazio)).
Proof.
  pose proof (C10_missing_features_list_skips Amostra.sem_ul
                (Amostra.p_preco "R$ 900") (Amostra.p_endereco "QNL 5")
                (Amostra.a_link "/imovel/3") eq_refl eq_refl eq_refl eq_refl)
    as (_ & H2 & H3).
  split; [exact H2|]. exact (proj1 (H3 (inicio Amostra.disco_vazio))).
Defined.

(** C2, as the code has it.  A container whose price, address, link and
    features list are all found yields a record, whichever of the four
    features the list holds: a feature with no matching line is stored as
    "N/A", a feature with one as its stripped text.  Every record that is
    produced carries the seven keys, each bound to a string. *)
Theorem C2_missing_feature_is_NA (c p a l u : node) :
  find q_price c = Some p -> find q_address c = Some a -> find q_link c = Some l ->
  find q_features c = Some u ->
  exists d,
    extrair c = Ok d
    /\ (forall m, processar_anuncio c m
                  = (Ok tt, set_dados (dados_gerais_imoveis m ++ [d]) m))
    /\ (forall title key, In (title, key) caracteristicas ->
          match find (ByAttr "li" "title" title) u with
          | None => lookup key d = Some "N/A"
          | Some t => lookup key d = Some (PyStr.strip (text t))
          end)
    /\ (forall c' d', extrair c' = Ok d' ->
          map fst d' = campos
          /\ forall k, In k campos -> exists v, lookup k d' = Some v).
Proof.
  intros Hp Ha Hl Hf.
  destruct (find_link_href c l Hl) as [v Hv].
  pose proof (extrair_completo c p a l u v Hp Ha Hl Hv Hf) as Hx.
  eexists. split; [exact Hx|].
  split; [intros m; now apply processar_ok|].
  split.
  - intros title key Hin. unfold caracteristicas in Hin. cbn [In] in Hin.
    destruct Hin as [H|[H|[H|[H|[]]]]]; injection H as <- <-;
      cbn [lookup String.eqb Ascii.eqb Bool.eqb]; unfold feature_em;
      match goal with
      | |- context [find ?q u] => destruct (find q u)
      end; reflexivity.
  - intros c' d' Hd'. pose proof (extrair_ok_campos c' d' Hd') as Hk.
    split; [exact Hk|]. intros k Hin.
    pose proof (linha_de_campos d' Hk) as Hrow.
    apply (in_map (fun c0 => lookup c0 d')) in Hin. rewrite Hrow in Hin.
    apply in_map_iff in Hin as (kv & Hkv & _). eauto.
Qed.

Lemma C2_witness :
  exists d,
    extrair Amostra.sem_suites = Ok d
    /\ lookup "quartos" d = Some "1"
    /\ lookup "suites" d = Some "N/A"
    /\ lookup "vagas" d = Some "N/A"
    /\ map fst d = campos.
Proof.
  destruct (C2_missing_feature_is_NA Amostra.sem_suites
              (Amostra.p_preco "R$ 1.200") (Amostra.p_endereco "Rua 12, Vicente Pires")
              (Amostra.a_link "https://outro.example/imovel/2")
              (Amostra.ul [Amostra.li "Área útil" "45 m²"; Amostra.li "Quartos" "1"])
              eq_refl eq_refl eq_refl eq_refl) as (d & Hx & _ & Hfeat & Hall).
  exists d. split; [exact Hx|].
  split; [exact (Hfeat "Quartos" "quartos" ltac:(cbn; tauto))|].
  split; [exact (Hfeat "Suítes" "suites" ltac:(cbn; tauto))|].
  split; [exact (Hfeat "Vagas" "vagas" ltac:(cbn; tauto))|].
  exact (proj1 (Hall _ _ Hx)).
Defined.

(** C2 as stated fails on a container that has price, address and link but
    no features list: all four features are missing, yet no record is
    produced. *)
Lemma C2_counterexample :
  find q_price Amostra.sem_ul <> None
  /\ find q_address Amostra.sem_ul <> None
  /\ find q_link Amostra.sem_ul <> None
  /\ find (ByAttr "li" "title" "Vagas") Amostra.sem_ul = None
  /\ extrair Amostra.sem_ul = Raise AttributeError
  /\ dados_gerais_imoveis
       (snd (processar_anuncio Amostra.sem_ul (inicio Amostra.disco_vazio))) = [].
Proof. repeat split; try discriminate; reflexivity. Qed.

(** C1, on a page where the code departs from it.  The second of three
    containers has price and address but no link: its [TypeError] is not
    caught, the [for] loop stops there, the third container is never
    looked at, and the run ends with the exception and no file, the record
    of the first container included. *)
Theorem C1_container_without_link_aborts_page :
  find_all q_item (Amostra.pagina [Amostra.completo; Amostra.sem_link; Amostra.completo])
  = [Amostra.completo; Amostra.sem_link; Amostra.completo]
  /\ extrair Amostra.sem_link = Raise TypeError
  /\ (exists d,
        extrair Amostra.completo = Ok d
        /\ for_each processar_anuncio
             [Amostra.completo; Amostra.sem_link; Amostra.completo]
             (inicio Amostra.disco_vazio)
           = (Raise TypeError, set_dados [d] (inicio Amostra.disco_vazio)))
  /\ fst (run Amostra.site_sem_link Amostra.disco_vazio) = Raise TypeError
  /\ gets (log (snd (run Amostra.site_sem_link Amostra.disco_vazio)))
     = [HOME_PAGE; URL_BASE]
  /\ files (snd (run Amostra.site_sem_link Amostra.disco_vazio)) NOME_ARQUIVO_BRUTO = None.
Proof.
  split; [reflexivity|]. split; [reflexivity|].
  split; [eexists; split; vm_compute; reflexivity|].
  split; [vm_compute; reflexivity|]. split; vm_compute; reflexivity.
Qed.

Lemma colher_tudo (l : list node) :
  (forall c, In c l -> exists d, extrair c = Ok d) ->
  List.length (colher l) = List.length l /\ pulados l = [].
Proof.
  induction l as [|c l IH]; intros H; [split; reflexivity|].
  destruct (H c (or_introl eq_refl)) as [d Hd].
  destruct IH as [IH1 IH2]; [intros c' Hc'; apply H; right; exact Hc'|].
  unfold colher, pulados in *. cbn [flat_map filter]. rewrite Hd.
  cbn [app List.length]. split; [congruence|exact IH2].
Qed.

(** X15. The ceiling is 350.  In every run the requests are the home
    page and then the listing pages of index 1, 2, ..., n, one each and in
    that order, for some n of at most 350: the index starts at 1, moves by
    exactly one per page requested, and no page is requested past the
    ceiling.  When the warm-up visit succeeds and every page up to the
    ceiling loads with at least one container, each container either
    extracting or raising [AttributeError], the run ends normally after
    exactly 350 listing pages. *)
Theorem X15_page_ceiling (site : string -> response) (fs : filesystem) :
  MAX_PAGINAS = 350
  /\ (exists n, n <= MAX_PAGINAS
        /\ gets (log (snd (run site fs))) = HOME_PAGE :: map url_da_pagina (seq 1 n))
  /\ ((forall e, site HOME_PAGE <> NavError e) ->
      paginas_sas site 1 ->
      fst (run site fs) = Ok tt
      /\ gets (log (snd (run site fs)))
         = HOME_PAGE :: map url_da_pagina (seq 1 MAX_PAGINAS)).
Proof.
  split; [reflexivity|]. split; [apply run_gets|].
  intros Hhome Hsas.
  assert (Hcol : exists m1 es,
             coleta site (inicio fs) = (Ok tt, fechado m1)
             /\ log m1 = ([EvPrint MsgAquecendo; EvGet HOME_PAGE; EvSleep 3 7] ++ es)%list
             /\ gets es = map url_da_pagina (seq 1 MAX_PAGINAS)).
  { rewrite coleta_step.
    destruct (site HOME_PAGE) as [e|e|d0] eqn:Hh; [destruct (Hhome e); reflexivity| |].
    - destruct (crawl_loop_sas site (S MAX_PAGINAS) (aquecido (SourceError e) (inicio fs)))
        as (m1 & es & Hr & Hl & Hg);
        [exact Hsas|cbn [pagina_atual aquecido emit set_shown inicio]; lia|].
      rewrite Hr. exists m1, es. cbn [pagina_atual aquecido emit set_shown inicio] in Hg.
      replace (S MAX_PAGINAS - 1) with MAX_PAGINAS in Hg by lia. auto.
    - destruct (crawl_loop_sas site (S MAX_PAGINAS) (aquecido (Page d0) (inicio fs)))
        as (m1 & es & Hr & Hl & Hg);
        [exact Hsas|cbn [pagina_atual aquecido emit set_shown inicio]; lia|].
      rewrite Hr. exists m1, es. cbn [pagina_atual aquecido emit set_shown inicio] in Hg.
      replace (S MAX_PAGINAS - 1) with MAX_PAGINAS in Hg by lia. auto. }
  destruct Hcol as (m1 & es & Hc & Hl & Hg).
  destruct (run_log site fs) as (post & Hlr & Hgp & _).
  destruct (run_cases site fs) as (r1 & m1' & Hc' & Hrun).
  rewrite Hc in Hc'. injection Hc' as <- <-.
  split.
  - destruct Hrun as [(_ & _ & Hr)|[(_ & _ & Hr)|(e & He & _)]];
      [rewrite Hr; reflexivity|rewrite Hr; reflexivity|discriminate].
  - rewrite Hlr, Hc. cbn [snd log fechado emit].
    rewrite Hl, !gets_app, Hg, Hgp. cbn [gets flat_map app]. rewrite !app_nil_r.
    reflexivity.
Qed.

Lemma X15_witness :
  fst (run Amostra.site_sem_fim Amostra.disco_vazio) = Ok tt
  /\ gets (log (snd (run Amostra.site_sem_fim Amostra.disco_vazio)))
     = HOME_PAGE :: map url_da_pagina (seq 1 MAX_PAGINAS).
Proof.
  apply (proj2 (proj2 (X15_page_ceiling Amostra.site_sem_fim Amostra.disco_vazio))).
  - intros e. discriminate.
  - intros i _ _. exists (Amostra.pagina [Amostra.completo; Amostra.sem_preco]).
    split; [reflexivity|]. split; [vm_compute; discriminate|].
    intros c Hc. vm_compute in Hc.
    destruct Hc as [<-|[<-|[]]];
      [left; eexists; vm_compute; reflexivity|right; vm_compute; reflexivity].
Defined.

(** C3, on a site where the code departs from it.  Every listing page up
    to the ceiling of 350 loads and holds three containers, the second of
    them with price and address but no link.  The [TypeError] of that
    container is not caught: the run ends with it on page 1, after a
    single listing request instead of 350. *)
Theorem C3_nonempty_pages_single_fetch :
  MAX_PAGINAS = 350
  /\ paginas_nao_vazias Amostra.site_sem_link
  /\ fst (run Amostra.site_sem_link Amostra.disco_vazio) = Raise TypeError
  /\ gets (log (snd (run Amostra.site_sem_link Amostra.disco_vazio)))
     = HOME_PAGE :: map url_da_pagina (seq 1 1)
  /\ List.length (map url_da_pagina (seq 1 1)) <> MAX_PAGINAS.
Proof.
  split; [reflexivity|]. split.
  - intros i _ _.
    exists (Amostra.pagina [Amostra.completo; Amostra.sem_link; Amostra.completo]).
    split; [reflexivity|]. vm_compute. discriminate.
  - split; [vm_compute; reflexivity|].
    split; [vm_compute; reflexivity|discriminate].
Qed.

(** A page of good containers followed by an empty page: two requests,
    the records of the first page, and the loop is over. *)
Lemma crawl_loop_duas_paginas (site : string -> response) (fuel : nat)
      (m : machine) (d1 d2 : soup) :
  pagina_atual m + 1 <= MAX_PAGINAS ->
  site (url_da_pagina (pagina_atual m)) = Page d1 ->
  find_all q_item d1 <> [] ->
  (forall c, In c (find_all q_item d1) -> exists d, extrair c = Ok d) ->
  site (url_da_pagina (pagina_atual m + 1)) = Page d2 ->
  find_all q_item d2 = [] ->
  exists m',
    crawl_loop site (S (S fuel)) m = (Ok tt, m')
    /\ dados_gerais_imoveis m'
       = (dados_gerais_imoveis m ++ colher (find_all q_item d1))%list
    /\ files m' = files m
    /\ (exists es, log m' = (log m ++ es)%list
                   /\ gets es = [url_da_pagina (pagina_atual m);
                                 url_da_pagina (pagina_atual m + 1)]).
Proof.
  intros Hle Hs1 Hne Hok Hs2 He.
  rewrite crawl_loop_step.
  assert (Hleb : (pagina_atual m <=? MAX_PAGINAS) = true) by (apply Nat.leb_le; lia).
  rewrite Hleb. cbv zeta. rewrite Hs1.
  destruct (find_all q_item d1) as [|c l] eqn:Hfa; [congruence|].
  destruct (for_each_colher (c :: l)
              (emit (EvPrint (MsgEncontrados (List.length (c :: l))))
                 (apos_pausa (Page d1) (url_da_pagina (pagina_atual m)) m)))
    as (m2 & Hfor & Hd2 & _ & _ & _ & _);
    [intros x Hx; left; apply Hok; exact Hx|].
  rewrite Hfor.
  destruct (pagina_processada _ _ _ _ _ Hfor)
    as (_ & (es1 & Hl1 & Hg1 & _) & _ & Hf2 & Hp2).
  rewrite (crawl_loop_pagina_vazia site fuel (set_pagina (pagina_atual m2 + 1) m2) d2);
    cbn [pagina_atual set_pagina]; try rewrite Hp2; try assumption.
  eexists. split; [reflexivity|].
  split; [exact Hd2|]. split; [exact Hf2|].
  exists (es1 ++ [EvPrint (MsgNavegando (pagina_atual m + 1));
                  EvGet (url_da_pagina (pagina_atual m + 1));
                  EvPrint MsgPausa; EvSleep 4 8; EvPrint MsgFimDaColeta])%list.
  split.
  - cbn [log emit]. rewrite log_apos_pausa. cbn [log pagina_atual set_pagina].
    rewrite Hl1, ?Hp2, <- !app_assoc. reflexivity.
  - rewrite gets_app, Hg1. reflexivity.
Qed.

Lemma coleta_ate_vazia (site : string -> response) (fs : filesystem)
      (k : nat) (doc : soup) (r : result unit) (m1 : machine) :
  1 <= k -> site (url_da_pagina k) = Page doc -> find_all q_item doc = [] ->
  coleta site (inicio fs) = (r, m1) ->
  exists n, n <= k /\ gets (log m1) = HOME_PAGE :: map url_da_pagina (seq 1 n).
Proof.
  intros Hk Hs He H.
  assert (Hloop : forall r0 m',
             crawl_loop site (S MAX_PAGINAS) (aquecido r0 (inicio fs)) = (r, m') ->
             exists n, n <= k
               /\ gets (log (fechado m')) = HOME_PAGE :: map url_da_pagina (seq 1 n)).
  { intros r0 m' Hc.
    destruct (crawl_loop_progresso site _ _ _ _ Hc) as (n & _ & (es & Hl & Hg & _) & _).
    assert (Hk0 : pagina_atual (aquecido r0 (inicio fs)) <= k) by exact Hk.
    pose proof (crawl_loop_nada_depois site _ _ _ _ k doc es Hk0 Hs He Hc Hl) as Hb.
    rewrite Hg, length_map, length_seq in Hb.
    cbn [pagina_atual aquecido emit set_shown inicio] in Hb, Hg.
    exists n. split; [lia|].
    cbn [log fechado emit]. rewrite Hl, !gets_app, Hg.
    cbn [gets flat_map app log aquecido emit set_shown inicio]. rewrite !app_nil_r.
    reflexivity. }
  rewrite coleta_step in H.
  destruct (site HOME_PAGE) as [e|e|d0].
  - injection H as <- <-. exists 0. split; [lia|reflexivity].
  - destruct (crawl_loop site _ _) as [res m'] eqn:Hc. injection H as <- <-.
    exact (Hloop _ _ Hc).
  - destruct (crawl_loop site _ _) as [res m'] eqn:Hc. injection H as <- <-.
    exact (Hloop _ _ Hc).
Qed.

(** C4. A fetched page with no listing container ends the loop then and
    there: the turn of the loop returns normally, the collected records
    and the page index are what they were, and the only request of that
    turn is the one for the empty page.  In a whole run no page beyond an
    empty one is ever requested.  When page 1 holds n > 0 containers that
    all extract and page 2 is empty, the run requests the home page, page
    1 and page 2, and ends with n records; with n = 20, two listing
    fetches and twenty records. *)
Theorem C4_empty_page_stops_crawl (site : string -> response) :
  (forall fuel m doc,
      pagina_atual m <= MAX_PAGINAS ->
      site (url_da_pagina (pagina_atual m)) = Page doc ->
      find_all q_item doc = [] ->
      exists m',
        crawl_loop site (S fuel) m = (Ok tt, m')
        /\ dados_gerais_imoveis m' = dados_gerais_imoveis m
        /\ pagina_atual m' = pagina_atual m
        /\ log m' = (log m ++ [EvPrint (MsgNavegando (pagina_atual m));
                               EvGet (url_da_pagina (pagina_atual m));
                               EvPrint MsgPausa; EvSleep 4 8;
                               EvPrint MsgFimDaColeta])%list)
  /\ (forall fs k doc,
        1 <= k -> site (url_da_pagina k) = Page doc -> find_all q_item doc = [] ->
        exists n, n <= k
          /\ gets (log (snd (run site fs))) = HOME_PAGE :: map url_da_pagina (seq 1 n))
  /\ (forall fs d1 d2 n,
        (forall e, site HOME_PAGE <> NavError e) ->
        site (url_da_pagina 1) = Page d1 ->
        List.length (find_all q_item d1) = n -> 0 < n ->
        (forall c, In c (find_all q_item d1) -> exists d, extrair c = Ok d) ->
        site (url_da_pagina 2) = Page d2 ->
        find_all q_item d2 = [] ->
        fst (run site fs) = Ok tt
        /\ gets (log (snd (run site fs))) = [HOME_PAGE; url_da_pagina 1; url_da_pagina 2]
        /\ dados_gerais_imoveis (snd (run site fs)) = colher (find_all q_item d1)
        /\ List.length (dados_gerais_imoveis (snd (run site fs))) = n).
Proof.
  split; [|split].
  - intros fuel m doc Hle Hs He.
    rewrite (crawl_loop_pagina_vazia site fuel m doc Hle Hs He).
    eexists. split; [reflexivity|]. repeat split.
    cbn [log emit]. rewrite log_apos_pausa, <- app_assoc. reflexivity.
  - intros fs k doc Hk Hs He.
    destruct (run_log site fs) as (post & Hl & Hg & _).
    destruct (coleta site (inicio fs)) as [r m1] eqn:Hc.
    destruct (coleta_ate_vazia site fs k doc r m1 Hk Hs He Hc) as (n & Hn & Hgc).
    exists n. split; [exact Hn|].
    rewrite Hl, gets_app, Hg, app_nil_r. exact Hgc.
  - intros fs d1 d2 n Hhome Hs1 Hlen Hpos Hok Hs2 He.
    assert (Hne : find_all q_item d1 <> []).
    { intros E. rewrite E in Hlen. cbn in Hlen. lia. }
    assert (Hcol : exists m',
               coleta site (inicio fs) = (Ok tt, fechado m')
               /\ dados_gerais_imoveis m' = colher (find_all q_item d1)
               /\ gets (log m') = [HOME_PAGE; url_da_pagina 1; url_da_pagina 2]).
    { assert (Hloop : forall r0, exists m',
                 crawl_loop site (S MAX_PAGINAS) (aquecido r0 (inicio fs)) = (Ok tt, m')
                 /\ dados_gerais_imoveis m' = colher (find_all q_item d1)
                 /\ gets (log m') = [HOME_PAGE; url_da_pagina 1; url_da_pagina 2]).
      { intros r0.
        destruct (crawl_loop_duas_paginas site 349 (aquecido r0 (inicio fs)) d1 d2)
          as (m' & Hr & Hd & _ & (es & Hl & Hg)); try assumption.
        - cbn [pagina_atual aquecido emit set_shown inicio]. unfold MAX_PAGINAS. lia.
        - exists m'. split; [exact Hr|]. split; [exact Hd|].
          rewrite Hl, gets_app, Hg. reflexivity. }
      rewrite coleta_step.
      destruct (site HOME_PAGE) as [e|e|d0] eqn:Hh; [destruct (Hhome e); reflexivity| |].
      - destruct (Hloop (SourceError e)) as (m' & Hr & Hd & Hg). rewrite Hr. eauto.
      - destruct (Hloop (Page d0)) as (m' & Hr & Hd & Hg). rewrite Hr. eauto. }
    destruct Hcol as (m' & Hc & Hd & Hg).
    destruct (colher_tudo _ Hok) as [Hcl _].
    assert (Hdne : dados_gerais_imoveis (fechado m') <> []).
    { cbn [dados_gerais_imoveis fechado emit]. rewrite Hd. intros E.
      rewrite E in Hcl. cbn in Hcl. lia. }
    unfold run. rewrite script_step, Hc, (salvar_dados _ Hdne). cbn [fst snd].
    split; [reflexivity|].
    split.
    + rewrite log_salvo, gets_app. cbn [log fechado emit].
      rewrite !gets_app, Hg. reflexivity.
    + cbn [dados_gerais_imoveis salvo fechado emit set_files]. rewrite Hd.
      split; [reflexivity|]. congruence.
Qed.

Lemma C4_witness :
  fst (run Amostra.site_duas_paginas Amostra.disco_vazio) = Ok tt
  /\ gets (log (snd (run Amostra.site_duas_paginas Amostra.disco_vazio)))
     = [HOME_PAGE; url_da_pagina 1; url_da_pagina 2]
  /\ dados_gerais_imoveis (snd (run Amostra.site_duas_paginas Amostra.disco_vazio))
     = colher (find_all q_item (Amostra.pagina (repeat Amostra.completo 20)))
  /\ List.length
       (dados_gerais_imoveis (snd (run Amostra.site_duas_paginas Amostra.disco_vazio)))
     = 20.
Proof.
  apply (proj2 (proj2 (C4_empty_page_stops_crawl Amostra.site_duas_paginas))
           Amostra.disco_vazio
           (Amostra.pagina (repeat Amostra.completo 20)) (Amostra.pagina []) 20).
  - intros e. discriminate.
  - reflexivity.
  - vm_compute. reflexivity.
  - lia.
  - intros c Hc. vm_compute in Hc.
    repeat (destruct Hc as [<-|Hc]; [eexists; vm_compute; reflexivity|]).
    destruct Hc.
  - reflexivity.
  - reflexivity.
Defined.

(** C5. Whatever the site answers (a failed warm-up, a failed navigation,
    a page whose source cannot be read, a container that raises, an empty
    page or the ceiling) the run comes to an end and [driver.quit] is
    called exactly once in it, right after the closing message of the
    [finally] block; nothing is requested from the browser afterwards. *)
Theorem C5_browser_closed_exactly_once (site : string -> response) (fs : filesystem) :
  fst (run site fs) <> OutOfFuel
  /\ quits (log (snd (run site fs))) = 1
  /\ (exists pre post,
        log (snd (run site fs))
        = (pre ++ [EvPrint MsgFinalizando; EvQuit] ++ post)%list
        /\ quits pre = 0 /\ quits post = 0 /\ gets post = [])
  /\ (forall e, fst (coleta site (inicio fs)) = Raise e ->
        fst (run site fs) = Raise e
        /\ quits (log (snd (run site fs))) = 1).
Proof.
  destruct (run_log site fs) as (post & Hl & Hg & Hq).
  destruct (run_cases site fs) as (r1 & m1 & Hc & Hrun).
  destruct (coleta_resumo site fs r1 m1 Hc)
    as (Hr & _ & _ & Hq1 & _ & _ & (pre & Hpre & Hqpre)).
  rewrite Hc in *. cbn [fst snd] in *.
  assert (Hquits : quits (log (snd (run site fs))) = 1)
    by (rewrite Hl, quits_app, Hq1, Hq; reflexivity).
  split.
  - destruct Hrun as [(_ & _ & H)|[(_ & _ & H)|(e & _ & H)]]; rewrite H; discriminate.
  - split; [exact Hquits|]. split.
    + exists pre, post. rewrite Hl, Hpre, <- app_assoc. auto.
    + intros e He. split; [|exact Hquits].
      destruct Hrun as [(H1 & _)|[(H1 & _)|(e' & H1 & H)]]; try congruence.
      rewrite H. cbn. congruence.
Qed.

Lemma C5_witness :
  fst (run Amostra.site_queda Amostra.disco_vazio) = Raise WebDriverException
  /\ quits (log (snd (run Amostra.site_queda Amostra.disco_vazio))) = 1.
Proof.
  apply (proj2 (proj2 (proj2
           (C5_browser_closed_exactly_once Amostra.site_queda Amostra.disco_vazio)))).
  vm_compute. reflexivity.
Defined.

(** C6. When warm-up and crawl end normally, part 5 runs once.  With
    records collected, one file is written at the fixed path, replacing
    whatever was there and leaving every other path alone: encoding
    utf-8-sig (UTF-8 with a byte order mark), no index column, the columns
    price, address, area, bedrooms, suites, parking and URL in that order,
    one row per record in the order of collection, every cell filled; the
    run then reports the record count and the success.  With nothing
    collected no file is written and the run reports instead that no data
    was collected. *)
Theorem C6_persist_after_normal_end (site : string -> response) (fs : filesystem)
        (m1 : machine) :
  coleta site (inicio fs) = (Ok tt, m1) ->
  (dados_gerais_imoveis m1 <> [] ->
     run site fs = (Ok tt, salvo m1)
     /\ files (salvo m1) NOME_ARQUIVO_BRUTO
        = Some {| csv_encoding := "utf-8-sig"; csv_index := false;
                  csv_table :=
                    {| columns := campos;
                       rows := map (fun d => map (fun kv => Some (snd kv)) d)
                                   (dados_gerais_imoveis m1) |} |}
     /\ List.length (rows (DataFrame_of (dados_gerais_imoveis m1)))
        = List.length (dados_gerais_imoveis m1)
     /\ (forall p, p <> NOME_ARQUIVO_BRUTO -> files (salvo m1) p = fs p)
     /\ writes (log (salvo m1)) = [NOME_ARQUIVO_BRUTO]
     /\ log (salvo m1)
        = (log m1 ++ [EvPrint (MsgCriandoDataFrame (List.length (dados_gerais_imoveis m1)));
                      EvToCsv NOME_ARQUIVO_BRUTO; EvPrint MsgSucesso;
                      EvPrint MsgAmostra; EvPrint MsgDfHead])%list)
  /\ (dados_gerais_imoveis m1 = [] ->
        run site fs = (Ok tt, emit (EvPrint MsgNenhumDado) m1)
        /\ files (emit (EvPrint MsgNenhumDado) m1) = fs
        /\ writes (log (emit (EvPrint MsgNenhumDado) m1)) = []
        /\ log (emit (EvPrint MsgNenhumDado) m1)
           = (log m1 ++ [EvPrint MsgNenhumDado])%list).
Proof.
  intros Hc.
  destruct (coleta_resumo site fs _ _ Hc) as (_ & Hf & Hwf & _ & Hw & _ & _).
  split.
  - intros Hne.
    pose proof (DataFrame_of_campos _ Hne Hwf) as Hdf.
    split; [unfold run; rewrite script_step, Hc; apply (salvar_dados _ Hne)|].
    split.
    { cbn [files salvo emit set_files]. unfold write_file.
      rewrite String.eqb_refl. unfold arquivo_de. rewrite Hdf. reflexivity. }
    split; [rewrite Hdf; cbn [rows]; apply length_map|].
    split.
    { intros p Hp. cbn [files salvo emit set_files]. unfold write_file.
      apply String.eqb_neq in Hp. rewrite Hp. rewrite Hf. reflexivity. }
    split; [rewrite log_salvo, writes_app, Hw; reflexivity|apply log_salvo].
  - intros He.
    split; [unfold run; rewrite script_step, Hc; apply (salvar_vazio _ He)|].
    split; [exact Hf|].
    split; [cbn [log emit]; rewrite writes_app, Hw; reflexivity|reflexivity].
Qed.

Lemma C6_witness :
  run Amostra.site_duas_paginas Amostra.disco_usado
  = (Ok tt, salvo (snd (coleta Amostra.site_duas_paginas (inicio Amostra.disco_usado))))
  /\ Amostra.disco_usado NOME_ARQUIVO_BRUTO = Some Amostra.arquivo_antigo
  /\ option_map (fun f => (csv_encoding f, csv_index f, columns (csv_table f),
                           List.length (rows (csv_table f))))
       (files (snd (run Amostra.site_duas_paginas Amostra.disco_usado))
          NOME_ARQUIVO_BRUTO)
     = Some ("utf-8-sig", false, campos, 20)
  /\ run Amostra.site_vazio Amostra.disco_usado
     = (Ok tt, emit (EvPrint MsgNenhumDado)
                 (snd (coleta Amostra.site_vazio (inicio Amostra.disco_usado))))
  /\ files (snd (run Amostra.site_vazio Amostra.disco_usado)) NOME_ARQUIVO_BRUTO
     = Some Amostra.arquivo_antigo.
Proof.
  assert (H1 : coleta Amostra.site_duas_paginas (inicio Amostra.disco_usado)
               = (Ok tt, snd (coleta Amostra.site_duas_paginas (inicio Amostra.disco_usado))))
    by (vm_compute; reflexivity).
  assert (H2 : coleta Amostra.site_vazio (inicio Amostra.disco_usado)
               = (Ok tt, snd (coleta Amostra.site_vazio (inicio Amostra.disco_usado))))
    by (vm_compute; reflexivity).
  destruct (C6_persist_after_normal_end _ _ _ H1) as [Hcheio _].
  destruct (C6_persist_after_normal_end _ _ _ H2) as [_ Hvazio].
  destruct Hcheio as (Hr & _); [vm_compute; discriminate|].
  destruct Hvazio as (Hr' & _); [vm_compute; reflexivity|].
  split; [exact Hr|]. split; [reflexivity|].
  split; [vm_compute; reflexivity|]. split; [exact Hr'|].
  vm_compute. reflexivity.
Defined.

(** C8. When an exception leaves the [try] block (a failed navigation, a
    page source that cannot be read, an uncaught error of the extraction)
    the run ends with that exception once the browser is closed; part 5 is
    never reached, so no file is written and the file system is what it
    was, whatever had been collected from earlier pages. *)
Theorem C8_abort_writes_nothing (site : string -> response) (fs : filesystem)
        (e : exn) (m1 : machine) :
  coleta site (inicio fs) = (Raise e, m1) ->
  run site fs = (Raise e, m1)
  /\ files (snd (run site fs)) = fs
  /\ writes (log (snd (run site fs))) = []
  /\ quits (log (snd (run site fs))) = 1.
Proof.
  intros Hc.
  destruct (coleta_resumo site fs _ _ Hc) as (_ & Hf & _ & Hq & Hw & _ & _).
  assert (Hr : run site fs = (Raise e, m1))
    by (unfold run; rewrite script_step, Hc; reflexivity).
  rewrite Hr. cbn [snd]. auto.
Qed.

Lemma C8_witness :
  run Amostra.site_queda Amostra.disco_usado
  = (Raise WebDriverException,
     snd (coleta Amostra.site_queda (inicio Amostra.disco_usado)))
  /\ List.length
       (dados_gerais_imoveis (snd (run Amostra.site_queda Amostra.disco_usado))) = 2
  /\ files (snd (run Amostra.site_queda Amostra.disco_usado)) = Amostra.disco_usado
  /\ writes (log (snd (run Amostra.site_queda Amostra.disco_usado))) = [].
Proof.
  assert (H : coleta Amostra.site_queda (inicio Amostra.disco_usado)
              = (Raise WebDriverException,
                 snd (coleta Amostra.site_queda (inicio Amostra.disco_usado))))
    by (vm_compute; reflexivity).
  destruct (C8_abort_writes_nothing _ _ _ _ H) as (Hr & Hf & Hw & _).
  split; [exact Hr|]. split; [vm_compute; reflexivity|]. split; [exact Hf|exact Hw].
Defined.

(** * Further properties of the script *)

(** ** Extraction *)

(** X1. The outcome of the extraction of a container is decided by four
    searches, tried in the order of the source.  It raises [TypeError]
    exactly when price and address are found and no anchor with [href] is;
    it raises [AttributeError] exactly when the price or the address is
    missing, or the link is found and the features list is not; it returns
    a record exactly when all four are found.  It never raises [KeyError]:
    the anchor that [find('a', href=True)] returns always has an [href]. *)
Theorem X1_extraction_outcomes (c : node) :
  (extrair c = Raise TypeError <->
     find q_price c <> None /\ find q_address c <> None /\ find q_link c = None)
  /\ (extrair c = Raise AttributeError <->
        find q_price c = None \/ find q_address c = None
        \/ (find q_link c <> None /\ find q_features c = None))
  /\ ((exists d, extrair c = Ok d) <->
        find q_price c <> None /\ find q_address c <> None
        /\ find q_link c <> None /\ find q_features c <> None)
  /\ extrair c <> Raise KeyError
  /\ extrair c <> Raise WebDriverException
  /\ extrair c <> OutOfFuel.
Proof.
  destruct (find q_price c) as [p|] eqn:Hp.
  2:{ rewrite (extrair_sem_preco c Hp).
      repeat split; try discriminate; firstorder congruence. }
  destruct (find q_address c) as [a|] eqn:Ha.
  2:{ rewrite (extrair_sem_endereco c p Hp Ha).
      repeat split; try discriminate; firstorder congruence. }
  destruct (find q_link c) as [l|] eqn:Hl.
  2:{ rewrite (extrair_sem_link c p a Hp Ha Hl).
      repeat split; try discriminate; firstorder congruence. }
  destruct (find q_features c) as [u|] eqn:Hf.
  2:{ rewrite (extrair_sem_features c p a l Hp Ha Hl Hf).
      repeat split; try discriminate; firstorder congruence. }
  destruct (find_link_href c l Hl) as [v Hv].
  rewrite (extrair_completo c p a l u v Hp Ha Hl Hv Hf).
  repeat split; try discriminate; try (firstorder congruence); eauto.
Qed.

(** X2. Normalising a link twice is the same as normalising it once; the
    result never starts with "/"; and the result for a link that starts
    with "/" starts with the home page address. *)
Theorem X2_url_completa_idempotent (link : string) :
  url_completa (url_completa link) = url_completa link
  /\ PyStr.startswith "/" (url_completa link) = false
  /\ (PyStr.startswith "/" link = true ->
      PyStr.startswith HOME_PAGE (url_completa link) = true).
Proof.
  destruct link as [|a resto]; [repeat split; discriminate|].
  destruct (Ascii.eqb "/" a) eqn:Ha.
  - apply Ascii.eqb_eq in Ha. subst a. repeat split.
  - unfold url_completa, url_completa_de. cbn [PyStr.startswith].
    rewrite Ha. cbn [andb PyStr.startswith]. rewrite Ha.
    repeat split. discriminate.
Qed.

Lemma X2_witness :
  PyStr.startswith HOME_PAGE (url_completa "/imovel/1") = true.
Proof. apply (proj2 (proj2 (X2_url_completa_idempotent "/imovel/1"))). reflexivity. Defined.

(** ** Skipped containers *)

Lemma extrair_recuperavel (c : node) :
  find q_price c = None \/ find q_address c = None \/ find q_link c <> None ->
  (exists d, extrair c = Ok d) \/ extrair c = Raise AttributeError.
Proof.
  intros H.
  destruct (extrair_cases c) as [[d [Hd _]]|[Hs|Ht]]; [eauto|auto|].
  exfalso.
  destruct (find q_price c) as [p|] eqn:Hp;
    [|rewrite (extrair_sem_preco c Hp) in Ht; discriminate].
  destruct (find q_address c) as [a|] eqn:Ha;
    [|rewrite (extrair_sem_endereco c p Hp Ha) in Ht; discriminate].
  destruct (find q_link c) as [l|] eqn:Hl; [|destruct H as [H|[H|H]]; congruence].
  destruct (find q_features c) as [u|] eqn:Hf;
    [|rewrite (extrair_sem_features c p a l Hp Ha Hl Hf) in Ht; discriminate].
  destruct (find_link_href c l Hl) as [v Hv].
  rewrite (extrair_completo c p a l u v Hp Ha Hl Hv Hf) in Ht. discriminate.
Qed.

Lemma colher_pulados_length (l : list node) :
  (forall c, In c l -> (exists d, extrair c = Ok d) \/ extrair c = Raise AttributeError) ->
  List.length (colher l) + List.length (pulados l) = List.length l.
Proof.
  induction l as [|c l IH]; intros H; [reflexivity|].
  assert (IH' := IH (fun c' Hc' => H c' (or_intror Hc'))).
  unfold colher, pulados in *. cbn [flat_map filter].
  destruct (H c (or_introl eq_refl)) as [[d Hd]|Hs].
  - rewrite Hd. cbn [app List.length]. lia.
  - rewrite Hs. cbn [app List.length]. lia.
Qed.

(** X3. On a page where every container that has a price and an address
    also has a link, the [for] loop runs to its end: each container either
    adds its record or is skipped with exactly one warning, the records
    are appended in document order after those already collected, and a
    skipped container takes nothing away from the others.  Records plus
    warnings count the containers. *)
Theorem X3_skipped_containers_are_isolated (l : list node) (m : machine) :
  (forall c, In c l ->
     find q_price c = None \/ find q_address c = None \/ find q_link c <> None) ->
  exists m',
    for_each processar_anuncio l m = (Ok tt, m')
    /\ dados_gerais_imoveis m' = (dados_gerais_imoveis m ++ colher l)%list
    /\ log m' = (log m ++ map (fun _ => EvPrint MsgAvisoPulado) (pulados l))%list
    /\ List.length (colher l) + List.length (pulados l) = List.length l
    /\ pagina_atual m' = pagina_atual m
    /\ files m' = files m.
Proof.
  intros H.
  assert (H' : forall c, In c l ->
                 (exists d, extrair c = Ok d) \/ extrair c = Raise AttributeError)
    by (intros c Hc; apply extrair_recuperavel, H, Hc).
  destruct (for_each_colher l m H') as (m' & Hr & Hd & Hl & Hp & Hf & _).
  exists m'. repeat split; auto. apply colher_pulados_length, H'.
Qed.

Lemma X3_witness :
  exists m',
    for_each processar_anuncio
      [Amostra.completo; Amostra.sem_preco; Amostra.sem_ul; Amostra.sem_suites]
      (inicio Amostra.disco_vazio) = (Ok tt, m')
    /\ List.length (dados_gerais_imoveis m') = 2
    /\ log m' = [EvPrint MsgAvisoPulado; EvPrint MsgAvisoPulado].
Proof.
  destruct (X3_skipped_containers_are_isolated
              [Amostra.completo; Amostra.sem_preco; Amostra.sem_ul; Amostra.sem_suites]
              (inicio Amostra.disco_vazio)) as (m' & Hr & Hd & Hl & _).
  - intros c Hc. cbn [In] in Hc.
    destruct Hc as [<-|[<-|[<-|[<-|[]]]]];
      try (right; right; discriminate); left; reflexivity.
  - exists m'. split; [exact Hr|]. rewrite Hd, Hl. split; reflexivity.
Defined.

(** ** Edge cases of a run *)

(** X4. When the warm-up visit of the home page fails, no listing page is
    requested; the browser is closed, the exception ends the run, nothing
    is collected and no file is written. *)
Theorem X4_warm_up_failure (site : string -> response) (fs : filesystem) (e : exn) :
  site HOME_PAGE = NavError e ->
  fst (run site fs) = Raise e
  /\ log (snd (run site fs))
     = [EvPrint MsgAquecendo; EvGet HOME_PAGE; EvPrint MsgFinalizando; EvQuit]
  /\ dados_gerais_imoveis (snd (run site fs)) = []
  /\ files (snd (run site fs)) = fs.
Proof.
  intros H. unfold run. rewrite script_step, coleta_step, H. repeat split.
Qed.

Lemma X4_witness :
  fst (run (fun _ => NavError WebDriverException) Amostra.disco_usado)
  = Raise WebDriverException
  /\ gets (log (snd (run (fun _ => NavError WebDriverException) Amostra.disco_usado)))
     = [HOME_PAGE].
Proof.
  destruct (X4_warm_up_failure (fun _ => NavError WebDriverException)
              Amostra.disco_usado WebDriverException eq_refl) as (H1 & H2 & _).
  split; [exact H1|]. rewrite H2. reflexivity.
Defined.

(** X5. When the first listing page holds no container the run ends
    normally after that single listing request: nothing is collected, the
    file system is left as it was (a file of an earlier run is neither
    rewritten nor emptied) and the last line printed is the notice that no
    data was collected. *)
Theorem X5_empty_first_page (site : string -> response) (fs : filesystem) (doc : soup) :
  (forall e, site HOME_PAGE <> NavError e) ->
  site URL_BASE = Page doc ->
  find_all q_item doc = [] ->
  fst (run site fs) = Ok tt
  /\ gets (log (snd (run site fs))) = [HOME_PAGE; URL_BASE]
  /\ dados_gerais_imoveis (snd (run site fs)) = []
  /\ files (snd (run site fs)) = fs
  /\ writes (log (snd (run site fs))) = []
  /\ exists pre,
       log (snd (run site fs))
       = (pre ++ [EvPrint MsgFimDaColeta; EvPrint MsgFinalizando; EvQuit;
                  EvPrint MsgNenhumDado])%list.
Proof.
  intros Hhome Hs He.
  assert (Hloop : forall r0,
             crawl_loop site (S MAX_PAGINAS) (aquecido r0 (inicio fs))
             = (Ok tt, emit (EvPrint MsgFimDaColeta)
                         (apos_pausa (Page doc) URL_BASE (aquecido r0 (inicio fs))))).
  { intros r0.
    rewrite (crawl_loop_pagina_vazia site MAX_PAGINAS (aquecido r0 (inicio fs)) doc);
      [reflexivity| |exact Hs|exact He].
    cbn [pagina_atual aquecido emit set_shown inicio]. unfold MAX_PAGINAS. lia. }
  unfold run. rewrite script_step, coleta_step.
  destruct (site HOME_PAGE) as [e|e|d0] eqn:Hh; [destruct (Hhome e); reflexivity| |];
    rewrite Hloop; rewrite salvar_vazio by reflexivity; cbn [fst snd];
    (split; [reflexivity|]); (split; [vm_compute; reflexivity|]);
    (split; [vm_compute; reflexivity|]); (split; [vm_compute; reflexivity|]);
    (split; [vm_compute; reflexivity|]);
    exists [EvPrint MsgAquecendo; EvGet HOME_PAGE; EvSleep 3 7;
            EvPrint (MsgNavegando 1); EvGet URL_BASE; EvPrint MsgPausa; EvSleep 4 8];
    vm_compute; reflexivity.
Qed.

Lemma X5_witness :
  fst (run Amostra.site_vazio Amostra.disco_usado) = Ok tt
  /\ files (snd (run Amostra.site_vazio Amostra.disco_usado)) NOME_ARQUIVO_BRUTO
     = Some Amostra.arquivo_antigo.
Proof.
  destruct (X5_empty_first_page Amostra.site_vazio Amostra.disco_usado (Amostra.pagina []))
    as (H1 & _ & _ & H4 & _).
  - intros e. discriminate.
  - reflexivity.
  - reflexivity.
  - split; [exact H1|]. rewrite H4. reflexivity.
Defined.

Lemma extrair_estrutura_invalida (c : node) :
  find q_price c = None \/ find q_address c = None
  \/ (find q_link c <> None /\ find q_features c = None) ->
  extrair c = Raise AttributeError.
Proof.
  intros H.
  destruct (find q_price c) as [p|] eqn:Hp; [|now apply extrair_sem_preco].
  destruct (find q_address c) as [a|] eqn:Ha; [|now apply (extrair_sem_endereco c p)].
  destruct H as [H|[H|[Hl Hf]]]; try discriminate.
  destruct (find q_link c) as [l|] eqn:Hl'; [|congruence].
  now apply (extrair_sem_features c p a l).
Qed.

Lemma nada_colhido (l : list node) :
  (forall c, In c l -> extrair c = Raise AttributeError) ->
  colher l = [] /\ pulados l = l.
Proof.
  induction l as [|c l IH]; intros H; [split; reflexivity|].
  destruct IH as [IH1 IH2]; [intros c' Hc'; apply H; right; exact Hc'|].
  unfold colher, pulados in *. cbn [flat_map filter].
  rewrite (H c (or_introl eq_refl)). cbn [app]. rewrite IH1, IH2. split; reflexivity.
Qed.

(** X6. The loop stops on a page without containers, not on a page
    without records.  When a page holds containers and every one of them
    is skipped, the turn of the loop collects nothing, prints one warning
    per container, moves the page index on by one and the loop carries on
    from the next page. *)
Theorem X6_page_of_skipped_containers_goes_on
        (site : string -> response) (fuel : nat) (m : machine) (doc : soup) :
  pagina_atual m <= MAX_PAGINAS ->
  site (url_da_pagina (pagina_atual m)) = Page doc ->
  find_all q_item doc <> [] ->
  (forall c, In c (find_all q_item doc) ->
     find q_price c = None \/ find q_address c = None
     \/ (find q_link c <> None /\ find q_features c = None)) ->
  exists m2,
    crawl_loop site (S fuel) m = crawl_loop site fuel m2
    /\ dados_gerais_imoveis m2 = dados_gerais_imoveis m
    /\ pagina_atual m2 = pagina_atual m + 1
    /\ files m2 = files m
    /\ log m2
       = (log m ++ [EvPrint (MsgNavegando (pagina_atual m));
                    EvGet (url_da_pagina (pagina_atual m));
                    EvPrint MsgPausa; EvSleep 4 8;
                    EvPrint (MsgEncontrados (List.length (find_all q_item doc)))]
                ++ map (fun _ => EvPrint MsgAvisoPulado) (find_all q_item doc))%list.
Proof.
  intros Hle Hs Hne Hall.
  assert (Hx : forall c, In c (find_all q_item doc) -> extrair c = Raise AttributeError)
    by (intros c Hc; apply extrair_estrutura_invalida, Hall, Hc).
  destruct (nada_colhido _ Hx) as [Hcol Hpul].
  rewrite crawl_loop_step.
  apply Nat.leb_le in Hle. rewrite Hle. cbv zeta. rewrite Hs.
  destruct (find_all q_item doc) as [|c l] eqn:Hfa; [congruence|].
  destruct (for_each_colher (c :: l)
              (emit (EvPrint (MsgEncontrados (List.length (c :: l))))
                 (apos_pausa (Page doc) (url_da_pagina (pagina_atual m)) m)))
    as (m2 & Hfor & Hd & Hl & Hp & Hf & _);
    [intros x Hx'; right; apply Hx, Hx'|].
  rewrite Hfor.
  exists (set_pagina (pagina_atual m2 + 1) m2).
  split; [reflexivity|]. cbn [dados_gerais_imoveis pagina_atual files log set_pagina].
  rewrite Hd, Hl, Hp, Hf, Hcol, Hpul, app_nil_r.
  cbn [log emit dados_gerais_imoveis pagina_atual files apos_pausa apos_get set_shown].
  rewrite <- !app_assoc. repeat split.
Qed.

Lemma X6_witness :
  exists m2,
    crawl_loop (fun _ => Page (Amostra.pagina [Amostra.sem_preco; Amostra.sem_ul])) 3
      (inicio Amostra.disco_vazio)
    = crawl_loop (fun _ => Page (Amostra.pagina [Amostra.sem_preco; Amostra.sem_ul])) 2 m2
    /\ dados_gerais_imoveis m2 = []
    /\ pagina_atual m2 = 2.
Proof.
  destruct (X6_page_of_skipped_containers_goes_on
              (fun _ => Page (Amostra.pagina [Amostra.sem_preco; Amostra.sem_ul])) 2
              (inicio Amostra.disco_vazio)
              (Amostra.pagina [Amostra.sem_preco; Amostra.sem_ul]))
    as (m2 & H1 & H2 & H3 & _).
  - cbn [pagina_atual inicio]. unfold MAX_PAGINAS. lia.
  - reflexivity.
  - vm_compute. discriminate.
  - intros c Hc. vm_compute in Hc.
    destruct Hc as [<-|[<-|[]]];
      [left; reflexivity|right; right; split; [discriminate|reflexivity]].
  - exists m2. split; [exact H1|]. split; [exact H2|exact H3].
Defined.

(** ** The addresses requested *)

Lemma append_inv_head (p a b : string) : p ++ a = p ++ b -> a = b.
Proof.
  induction p as [|ch p IH]; cbn; intros H; [exact H|].
  injection H as H. apply IH, H.
Qed.

Lemma append_vazio (p : string) : p ++ EmptyString = p.
Proof. induction p as [|ch p IH]; cbn; [reflexivity|]. rewrite IH. reflexivity. Qed.

Lemma str_of_nat_inj (i j : nat) : PyStr.str_of_nat i = PyStr.str_of_nat j -> i = j.
Proof.
  unfold PyStr.str_of_nat. intros H.
  apply (f_equal NilEmpty.uint_of_string) in H. rewrite !NilEmpty.usu in H.
  injection H as H. apply (f_equal Nat.of_uint) in H.
  rewrite !DecimalNat.Unsigned.of_to in H. exact H.
Qed.

Lemma url_da_pagina_inj (i j : nat) :
  1 <= i -> 1 <= j -> url_da_pagina i = url_da_pagina j -> i = j.
Proof.
  intros Hi Hj. unfold url_da_pagina.
  destruct (1 <? i) eqn:Ei; destruct (1 <? j) eqn:Ej;
    try apply Nat.ltb_lt in Ei; try apply Nat.ltb_lt in Ej;
    try apply Nat.ltb_ge in Ei; try apply Nat.ltb_ge in Ej; intros H.
  - apply append_inv_head in H. apply (append_inv_head "?pagina=") in H.
    apply str_of_nat_inj, H.
  - exfalso. rewrite <- (append_vazio URL_BASE) in H at 2.
    apply append_inv_head in H. discriminate H.
  - exfalso. rewrite <- (append_vazio URL_BASE) in H at 1.
    apply append_inv_head in H. discriminate H.
  - lia.
Qed.

Lemma url_da_pagina_nao_home (i : nat) : url_da_pagina i <> HOME_PAGE.
Proof.
  unfold url_da_pagina. destruct (1 <? i); intros H; cbn in H; discriminate H.
Qed.

(** X7. Page 1 is the bare listing address and page N > 1 the same
    address followed by "?pagina=" and N in decimal (page 12 ends in
    "?pagina=12"); two different page numbers never give the same address,
    and no page address is the home page.  So a run never requests the
    same address twice. *)
Theorem X7_no_address_requested_twice :
  url_da_pagina 1 = URL_BASE
  /\ (forall n, 1 < n ->
        url_da_pagina n = URL_BASE ++ "?pagina=" ++ PyStr.str_of_nat n)
  /\ url_da_pagina 12
     = "https://www.dfimoveis.com.br/aluguel/df/todos/imoveis?pagina=12"
  /\ (forall i j, 1 <= i -> 1 <= j -> url_da_pagina i = url_da_pagina j -> i = j)
  /\ (forall i, url_da_pagina i <> HOME_PAGE)
  /\ (forall site fs, NoDup (gets (log (snd (run site fs))))).
Proof.
  split; [reflexivity|].
  split; [intros n Hn; unfold url_da_pagina; apply Nat.ltb_lt in Hn; rewrite Hn;
          reflexivity|].
  split; [reflexivity|].
  split; [exact url_da_pagina_inj|]. split; [exact url_da_pagina_nao_home|].
  intros site fs. destruct (run_gets site fs) as (n & _ & Hg). rewrite Hg.
  constructor.
  - intros Hin. apply in_map_iff in Hin as (i & Hi & _).
    exact (url_da_pagina_nao_home i Hi).
  - apply NoDup_map_NoDup_ForallPairs; [|apply seq_NoDup].
    intros i j Hi Hj. apply in_seq in Hi, Hj. apply url_da_pagina_inj; lia.
Qed.

Lemma X7_witness :
  url_da_pagina 350 = URL_BASE ++ "?pagina=" ++ "350"
  /\ url_da_pagina 2 <> url_da_pagina 12.
Proof.
  split.
  - apply (proj1 (proj2 X7_no_address_requested_twice) 350). lia.
  - intros H.
    apply (proj1 (proj2 (proj2 (proj2 X7_no_address_requested_twice))) 2 12) in H;
      [discriminate H|lia|lia].
Defined.

(** ** The loop as a whole *)

(** X8. The page ceiling bounds the loop.  From any state the loop
    requests at most [MAX_PAGINAS + 1 - pagina_atual] pages.  Unrolled
    strictly more often than that (one unrolling per page and one more
    for the test that ends the loop), it has ended, by itself or by an
    exception, and unrolling it further changes neither its result nor
    the state it leaves. *)
Theorem X8_loop_is_bounded (site : string -> response) (m : machine) (fuel extra : nat) :
  (exists es,
      log (snd (crawl_loop site fuel m)) = (log m ++ es)%list
      /\ List.length (gets es) <= MAX_PAGINAS + 1 - pagina_atual m)
  /\ (MAX_PAGINAS + 1 - pagina_atual m < fuel ->
      fst (crawl_loop site fuel m) <> OutOfFuel
      /\ crawl_loop site (fuel + extra) m = crawl_loop site fuel m).
Proof.
  destruct (crawl_loop site fuel m) as [r m'] eqn:H. cbn [fst snd].
  split.
  - destruct (crawl_loop_progresso site fuel m r m' H)
      as (n & Hn & (es & Hl & Hg & _) & _).
    exists es. split; [exact Hl|]. rewrite Hg, length_map, length_seq. lia.
  - intros Hfuel.
    assert (Hfuel' : S MAX_PAGINAS - pagina_atual m < fuel) by lia.
    pose proof (crawl_loop_termina site fuel m r m' Hfuel' H) as Hr.
    split; [exact Hr|]. apply crawl_loop_fuel; assumption.
Qed.

Lemma X8_witness :
  crawl_loop Amostra.site_duas_paginas (3 + 400)
    (set_pagina 349 (inicio Amostra.disco_vazio))
  = crawl_loop Amostra.site_duas_paginas 3 (set_pagina 349 (inicio Amostra.disco_vazio)).
Proof.
  apply (proj2 (X8_loop_is_bounded Amostra.site_duas_paginas
                  (set_pagina 349 (inicio Amostra.disco_vazio)) 3 400)).
  cbn [pagina_atual set_pagina]. unfold MAX_PAGINAS. lia.
Defined.

(** X9. The page index never goes down and never passes the ceiling by
    more than one.  When the loop ends without an exception it ended for
    one of two reasons: the index has passed the ceiling, or the page at
    the final index loaded without a single container, in which case the
    last thing printed is the end-of-collection message. *)
Theorem X9_loop_stops_at_ceiling_or_empty_page
        (site : string -> response) (fuel : nat) :
  forall m r m',
    crawl_loop site fuel m = (r, m') ->
    pagina_atual m <= pagina_atual m'
    /\ pagina_atual m' <= Nat.max (pagina_atual m) (S MAX_PAGINAS)
    /\ (r = Ok tt ->
        MAX_PAGINAS < pagina_atual m'
        \/ exists doc pre,
             site (url_da_pagina (pagina_atual m')) = Page doc
             /\ find_all q_item doc = []
             /\ log m' = (pre ++ [EvPrint MsgFimDaColeta])%list).
Proof.
  induction fuel as [|fuel IH]; intros m r m' H.
  - cbn in H. injection H as <- <-. split; [lia|]. split; [lia|discriminate].
  - rewrite crawl_loop_step in H.
    destruct (pagina_atual m <=? MAX_PAGINAS) eqn:Hle.
    + apply Nat.leb_le in Hle. cbv zeta in H.
      destruct (site (url_da_pagina (pagina_atual m))) as [e|e|doc] eqn:Hs.
      * injection H as <- <-. cbn [pagina_atual emit apos_get].
        split; [lia|]. split; [lia|discriminate].
      * injection H as <- <-. cbn [pagina_atual emit apos_pausa apos_get set_shown].
        split; [lia|]. split; [lia|discriminate].
      * destruct (find_all q_item doc) as [|c l] eqn:Hfa.
        { injection H as <- <-. cbn [pagina_atual emit apos_pausa apos_get set_shown].
          split; [lia|]. split; [lia|]. intros _. right. exists doc. eexists.
          split; [exact Hs|]. split; [exact Hfa|]. reflexivity. }
        destruct (for_each processar_anuncio (c :: l) _) as [r2 m2] eqn:Hfor.
        destruct (pagina_processada _ _ _ _ _ Hfor) as (Hr & _ & _ & _ & Hp).
        destruct r2 as [[]|e|].
        { destruct (IH _ _ _ H) as (H1 & H2 & H3).
          cbn [pagina_atual set_pagina] in H1, H2.
          split; [lia|]. split; [lia|exact H3]. }
        { injection H as <- <-. rewrite Hp. split; [lia|]. split; [lia|discriminate]. }
        { injection H as <- <-. rewrite Hp. split; [lia|]. split; [lia|discriminate]. }
    + apply Nat.leb_gt in Hle. injection H as <- <-.
      split; [lia|]. split; [lia|]. intros _. left. exact Hle.
Qed.

Lemma X9_witness :
  pagina_atual (snd (crawl_loop Amostra.site_duas_paginas 5 (inicio Amostra.disco_vazio)))
  = 2
  /\ exists doc pre,
       Amostra.site_duas_paginas (url_da_pagina 2) = Page doc
       /\ find_all q_item doc = []
       /\ log (snd (crawl_loop Amostra.site_duas_paginas 5 (inicio Amostra.disco_vazio)))
          = (pre ++ [EvPrint MsgFimDaColeta])%list.
Proof.
  assert (H : crawl_loop Amostra.site_duas_paginas 5 (inicio Amostra.disco_vazio)
              = (Ok tt, snd (crawl_loop Amostra.site_duas_paginas 5
                               (inicio Amostra.disco_vazio))))
    by (vm_compute; reflexivity).
  destruct (X9_loop_stops_at_ceiling_or_empty_page _ _ _ _ _ H) as (_ & _ & H3).
  assert (Hp : pagina_atual
                 (snd (crawl_loop Amostra.site_duas_paginas 5 (inicio Amostra.disco_vazio)))
               = 2) by (vm_compute; reflexivity).
  split; [exact Hp|].
  destruct (H3 eq_refl) as [Hc|Hd].
  - rewrite Hp in Hc. unfold MAX_PAGINAS in Hc. lia.
  - rewrite Hp in Hd. exact Hd.
Defined.

(** X10. However the loop ends, an exception included, it only adds to
    what was collected: the records present before are still there, first
    and in their order, and every record added carries the seven keys.
    The loop itself never closes the browser and never writes a file. *)
Theorem X10_loop_only_appends (site : string -> response) (fuel : nat)
        (m : machine) (r : result unit) (m' : machine) :
  crawl_loop site fuel m = (r, m') ->
  (exists novos,
      dados_gerais_imoveis m' = (dados_gerais_imoveis m ++ novos)%list
      /\ Forall (fun d => map fst d = campos) novos)
  /\ (exists es, log m' = (log m ++ es)%list /\ quits es = 0 /\ writes es = [])
  /\ files m' = files m.
Proof.
  intros H.
  destruct (crawl_loop_progresso site fuel m r m' H)
    as (n & _ & (es & Hl & _ & Hq & Hw) & Hd & Hf).
  split; [exact Hd|]. split; [exists es; auto|exact Hf].
Qed.

Lemma X10_witness :
  files (snd (crawl_loop Amostra.site_queda 9 (inicio Amostra.disco_usado)))
  = Amostra.disco_usado.
Proof.
  destruct (crawl_loop Amostra.site_queda 9 (inicio Amostra.disco_usado)) as [r m'] eqn:H.
  exact (proj2 (proj2 (X10_loop_only_appends _ _ _ _ _ H))).
Defined.

(** ** Pacing *)

Lemma ritmo_app (a b : list event) : ritmo (a ++ b) = (ritmo a ++ ritmo b)%list.
Proof. unfold ritmo. apply filter_app. Qed.

Lemma for_each_ritmo (l : list node) :
  forall m r m',
    for_each processar_anuncio l m = (r, m') ->
    exists es, log m' = (log m ++ es)%list /\ ritmo es = [].
Proof.
  induction l as [|c l IH]; intros m r m' H.
  - cbn in H. injection H as <- <-. exists []. rewrite app_nil_r. auto.
  - cbn [for_each] in H. unfold bind at 1 in H.
    destruct (extrair_cases c) as [[d [Hd _]]|[Hs|Ht]].
    + rewrite (processar_ok c d m Hd) in H.
      destruct (IH _ _ _ H) as (es & He & Hr). exists es. auto.
    + rewrite (processar_pulado c m Hs) in H.
      destruct (IH _ _ _ H) as (es & He & Hr).
      exists (EvPrint MsgAvisoPulado :: es). cbn [log emit] in He.
      rewrite He, <- app_assoc. auto.
    + rewrite (processar_type_error c m Ht) in H. injection H as <- <-.
      exists []. rewrite app_nil_r. auto.
Qed.

Lemma crawl_loop_ritmo (site : string -> response) (fuel : nat) :
  forall m r m',
    crawl_loop site fuel m = (r, m') ->
    exists es n,
      log m' = (log m ++ es)%list
      /\ (ritmo es = flat_map visita (seq (pagina_atual m) n)
          \/ (ritmo es = (flat_map visita (seq (pagina_atual m) n)
                            ++ [EvGet (url_da_pagina (pagina_atual m + n))])%list
              /\ exists e, r = Raise e
                           /\ site (url_da_pagina (pagina_atual m + n)) = NavError e)).
Proof.
  induction fuel as [|fuel IH]; intros m r m' H.
  - cbn in H. injection H as <- <-. exists [], 0. rewrite app_nil_r. auto.
  - rewrite crawl_loop_step in H.
    destruct (pagina_atual m <=? MAX_PAGINAS) eqn:Hle.
    2:{ injection H as <- <-. exists [], 0. rewrite app_nil_r. auto. }
    cbv zeta in H.
    destruct (site (url_da_pagina (pagina_atual m))) as [e|e|doc] eqn:Hs.
    + injection H as <- <-. eexists. exists 0. split; [apply log_apos_get|].
      right. rewrite Nat.add_0_r. split; [reflexivity|]. eauto.
    + injection H as <- <-. eexists. exists 1. split; [apply log_apos_pausa|].
      left. reflexivity.
    + destruct (find_all q_item doc) as [|c l] eqn:Hfa.
      { injection H as <- <-.
        exists [EvPrint (MsgNavegando (pagina_atual m));
                EvGet (url_da_pagina (pagina_atual m));
                EvPrint MsgPausa; EvSleep 4 8; EvPrint MsgFimDaColeta], 1.
        split; [|left; reflexivity].
        cbn [log emit]. rewrite log_apos_pausa, <- app_assoc. reflexivity. }
      destruct (for_each processar_anuncio (c :: l) _) as [r2 m2] eqn:Hfor.
      destruct (for_each_ritmo _ _ _ _ Hfor) as (esf & Hlf & Hrf).
      destruct (pagina_processada _ _ _ _ _ Hfor) as (_ & _ & _ & _ & Hp).
      cbn [log emit] in Hlf. rewrite log_apos_pausa, <- !app_assoc in Hlf. cbn [app] in Hlf.
      assert (Hum : ritmo ([EvPrint (MsgNavegando (pagina_atual m));
                            EvGet (url_da_pagina (pagina_atual m));
                            EvPrint MsgPausa; EvSleep 4 8;
                            EvPrint (MsgEncontrados (List.length (c :: l)))] ++ esf)
                    = visita (pagina_atual m)).
      { rewrite ritmo_app, Hrf. reflexivity. }
      destruct r2 as [[]|e|].
      * destruct (IH _ _ _ H) as (es & n & Hl & Hcase).
        cbn [log pagina_atual set_pagina] in Hl, Hcase. rewrite Hp in Hcase.
        eexists. exists (S n). split.
        { rewrite Hl, Hlf, <- app_assoc. cbn [app]. reflexivity. }
        change (EvPrint (MsgNavegando (pagina_atual m))
                  :: EvGet (url_da_pagina (pagina_atual m))
                  :: EvPrint MsgPausa :: EvSleep 4 8
                  :: EvPrint (MsgEncontrados (List.length (c :: l))) :: (esf ++ es)%list)
          with (([EvPrint (MsgNavegando (pagina_atual m));
                  EvGet (url_da_pagina (pagina_atual m));
                  EvPrint MsgPausa; EvSleep 4 8;
                  EvPrint (MsgEncontrados (List.length (c :: l)))] ++ esf) ++ es)%list.
        rewrite ritmo_app, Hum. cbn [seq flat_map].
        rewrite Nat.add_1_r in Hcase.
        replace (pagina_atual m + S n) with (S (pagina_atual m) + n) by lia.
        destruct Hcase as [Hc|[Hc He]]; [left|right; split; [|exact He]];
          rewrite Hc; rewrite <- ?app_assoc; reflexivity.
      * injection H as <- <-. eexists. exists 1. split; [exact Hlf|].
        left. cbn [seq flat_map]. rewrite app_nil_r, <- Hum. reflexivity.
      * injection H as <- <-. eexists. exists 1. split; [exact Hlf|].
        left. cbn [seq flat_map]. rewrite app_nil_r, <- Hum. reflexivity.
Qed.

(** X11. The browser traffic of every run is: the home page, a pause of 3
    to 7 seconds, then for each listing page in turn its request followed
    by a pause of 4 to 8 seconds.  No request follows another without a
    pause between them, and the only request that can be left without its
    pause is the last one, when that navigation failed. *)
Theorem X11_every_request_is_paced (site : string -> response) (fs : filesystem) :
  exists n,
    (ritmo (log (snd (run site fs))) = [EvGet HOME_PAGE]
     /\ exists e, site HOME_PAGE = NavError e)
    \/ ritmo (log (snd (run site fs)))
       = EvGet HOME_PAGE :: EvSleep 3 7 :: flat_map visita (seq 1 n)
    \/ (ritmo (log (snd (run site fs)))
        = (EvGet HOME_PAGE :: EvSleep 3 7 :: flat_map visita (seq 1 n)
             ++ [EvGet (url_da_pagina (1 + n))])%list
        /\ exists e, site (url_da_pagina (1 + n)) = NavError e).
Proof.
  assert (Hpost : exists post,
             log (snd (run site fs)) = (log (snd (coleta site (inicio fs))) ++ post)%list
             /\ ritmo post = []).
  { destruct (run_cases site fs)
      as (r1 & m1 & Hc & [(_ & _ & Hr)|[(_ & _ & Hr)|(e & _ & Hr)]]);
      rewrite Hc, Hr; cbn [snd].
    - exists [EvPrint MsgNenhumDado]. auto.
    - eexists. split; [apply log_salvo|reflexivity].
    - exists []. rewrite app_nil_r. auto. }
  destruct Hpost as (post & Hlog & Hpost). rewrite Hlog, ritmo_app, Hpost, app_nil_r.
  assert (Hloop : forall r0 res m',
             crawl_loop site (S MAX_PAGINAS) (aquecido r0 (inicio fs)) = (res, m') ->
             exists n,
               ritmo (log (fechado m'))
               = EvGet HOME_PAGE :: EvSleep 3 7 :: flat_map visita (seq 1 n)
               \/ (ritmo (log (fechado m'))
                   = (EvGet HOME_PAGE :: EvSleep 3 7 :: flat_map visita (seq 1 n)
                        ++ [EvGet (url_da_pagina (1 + n))])%list
                   /\ exists e, site (url_da_pagina (1 + n)) = NavError e)).
  { intros r0 res m' Hc.
    destruct (crawl_loop_ritmo site _ _ _ _ Hc) as (es & n & Hl & Hcase).
    cbn [pagina_atual aquecido emit set_shown inicio] in Hcase.
    assert (Hr : ritmo (log (fechado m'))
                 = EvGet HOME_PAGE :: EvSleep 3 7 :: ritmo es).
    { cbn [log fechado emit]. rewrite Hl, !ritmo_app.
      cbn [log aquecido emit set_shown inicio]. cbn. rewrite !app_nil_r. reflexivity. }
    exists n. rewrite Hr.
    destruct Hcase as [Hc'|[Hc' (e & _ & He)]]; rewrite Hc'; [left|right]; eauto. }
  rewrite coleta_step.
  destruct (site HOME_PAGE) as [e|e|d0] eqn:Hh.
  - exists 0. left. split; [reflexivity|eauto].
  - destruct (crawl_loop site _ _) as [res m'] eqn:Hc. cbn [snd].
    destruct (Hloop _ _ _ Hc) as [n Hn]. exists n. right. exact Hn.
  - destruct (crawl_loop site _ _) as [res m'] eqn:Hc. cbn [snd].
    destruct (Hloop _ _ _ Hc) as [n Hn]. exists n. right. exact Hn.
Qed.

(** ** What a run collects *)

Lemma colheita_passo (docs : nat -> soup) (p n : nat) :
  colheita docs p (S n)
  = (colher (find_all q_item (docs p)) ++ colheita docs (S p) n)%list.
Proof. reflexivity. Qed.

(** The loop over pages [pagina_atual m .. k - 1] that all load with
    containers none of which raises [TypeError], where [k] is the first
    empty page or one past the ceiling. *)
Lemma crawl_loop_exato (site : string -> response) (docs : nat -> soup) (k : nat)
      (fuel : nat) :
  forall m,
    pagina_atual m <= k -> k <= S MAX_PAGINAS ->
    (forall i, pagina_atual m <= i -> i < k ->
       site (url_da_pagina i) = Page (docs i)
       /\ find_all q_item (docs i) <> []
       /\ forall c, In c (find_all q_item (docs i)) ->
            find q_price c = None \/ find q_address c = None \/ find q_link c <> None) ->
    (k <= MAX_PAGINAS ->
       site (url_da_pagina k) = Page (docs k) /\ find_all q_item (docs k) = []) ->
    k - pagina_atual m < fuel ->
    exists m',
      crawl_loop site fuel m = (Ok tt, m')
      /\ dados_gerais_imoveis m'
         = (dados_gerais_imoveis m ++ colheita docs (pagina_atual m) (k - pagina_atual m))%list
      /\ pagina_atual m' = k.
Proof.
  induction fuel as [|fuel IH]; intros m Hpk Hk Hpages Hstop Hfuel; [lia|].
  destruct (Nat.eq_dec (pagina_atual m) k) as [Heq|Hneq].
  - subst k. clear IH. rewrite Nat.sub_diag.
    unfold colheita. cbn [seq flat_map]. rewrite app_nil_r.
    destruct (Nat.le_gt_cases (pagina_atual m) MAX_PAGINAS) as [Hle|Hgt].
    + destruct (Hstop Hle) as [Hs He].
      rewrite (crawl_loop_pagina_vazia site fuel m (docs (pagina_atual m)) Hle Hs He).
      eexists. split; [reflexivity|]. split; reflexivity.
    + rewrite crawl_loop_step.
      assert (Hleb : (pagina_atual m <=? MAX_PAGINAS) = false)
        by (apply Nat.leb_gt; lia).
      rewrite Hleb. exists m. auto.
  - assert (Hlt : pagina_atual m < k) by lia.
    destruct (Hpages (pagina_atual m) (le_n _) Hlt) as (Hs & Hne & Hcs).
    rewrite crawl_loop_step.
    assert (Hleb : (pagina_atual m <=? MAX_PAGINAS) = true)
      by (apply Nat.leb_le; lia).
    rewrite Hleb. cbv zeta. rewrite Hs.
    destruct (find_all q_item (docs (pagina_atual m))) as [|c l] eqn:Hfa; [congruence|].
    destruct (for_each_colher (c :: l)
                (emit (EvPrint (MsgEncontrados (List.length (c :: l))))
                   (apos_pausa (Page (docs (pagina_atual m)))
                      (url_da_pagina (pagina_atual m)) m)))
      as (m2 & Hfor & Hd & _ & Hp & _ & _);
      [intros x Hx; apply extrair_recuperavel, Hcs, Hx|].
    rewrite Hfor.
    cbn [pagina_atual dados_gerais_imoveis emit apos_pausa apos_get set_shown] in Hd, Hp.
    destruct (IH (set_pagina (pagina_atual m2 + 1) m2)) as (m' & Hr & Hd' & Hp').
    + cbn [pagina_atual set_pagina]. lia.
    + exact Hk.
    + cbn [pagina_atual set_pagina]. intros i Hi Hik. apply Hpages; lia.
    + exact Hstop.
    + cbn [pagina_atual set_pagina]. lia.
    + exists m'. split; [exact Hr|]. split; [|exact Hp'].
      cbn [pagina_atual dados_gerais_imoveis set_pagina] in Hd'.
      rewrite Hd', Hd, Hp, <- app_assoc.
      replace (k - pagina_atual m) with (S (k - (pagina_atual m + 1))) by lia.
      rewrite colheita_passo, Hfa, Nat.add_1_r. reflexivity.
Qed.

(** X12. Take a site whose warm-up succeeds and whose listing pages 1 to
    k - 1 all load with at least one container, none of which has price and
    address but no link, and where k is the first page without containers
    or, failing that, one past the ceiling.  The run ends normally and has
    collected exactly the records of pages 1 to k - 1, page after page and
    in document order within a page; when there are any, the rows of the
    file are these records in the same order. *)
Theorem X12_records_of_a_run (site : string -> response) (fs : filesystem)
        (docs : nat -> soup) (k : nat) :
  (forall e, site HOME_PAGE <> NavError e) ->
  1 <= k -> k <= S MAX_PAGINAS ->
  (forall i, 1 <= i -> i < k ->
     site (url_da_pagina i) = Page (docs i)
     /\ find_all q_item (docs i) <> []
     /\ forall c, In c (find_all q_item (docs i)) ->
          find q_price c = None \/ find q_address c = None \/ find q_link c <> None) ->
  (k <= MAX_PAGINAS ->
     site (url_da_pagina k) = Page (docs k) /\ find_all q_item (docs k) = []) ->
  fst (run site fs) = Ok tt
  /\ dados_gerais_imoveis (snd (run site fs)) = colheita docs 1 (k - 1)
  /\ (colheita docs 1 (k - 1) <> [] ->
      option_map (fun f => rows (csv_table f))
        (files (snd (run site fs)) NOME_ARQUIVO_BRUTO)
      = Some (map (fun d => map (fun kv => Some (snd kv)) d) (colheita docs 1 (k - 1)))).
Proof.
  intros Hhome H1 Hk Hpages Hstop.
  assert (Hcol : exists m',
             coleta site (inicio fs) = (Ok tt, fechado m')
             /\ dados_gerais_imoveis m' = colheita docs 1 (k - 1)).
  { assert (Hloop : forall r0, exists m',
               crawl_loop site (S MAX_PAGINAS) (aquecido r0 (inicio fs)) = (Ok tt, m')
               /\ dados_gerais_imoveis m' = colheita docs 1 (k - 1)).
    { intros r0.
      destruct (crawl_loop_exato site docs k (S MAX_PAGINAS) (aquecido r0 (inicio fs)))
        as (m' & Hr & Hd & _); try assumption;
        [cbn [pagina_atual aquecido emit set_shown inicio]; lia|].
      exists m'. split; [exact Hr|]. exact Hd. }
    rewrite coleta_step.
    destruct (site HOME_PAGE) as [e|e|d0] eqn:Hh; [destruct (Hhome e); reflexivity| |].
    - destruct (Hloop (SourceError e)) as (m' & Hr & Hd). rewrite Hr. eauto.
    - destruct (Hloop (Page d0)) as (m' & Hr & Hd). rewrite Hr. eauto. }
  destruct Hcol as (m' & Hc & Hd).
  destruct (coleta_resumo site fs _ _ Hc) as (_ & _ & Hwf & _).
  assert (Hdf : dados_gerais_imoveis (fechado m') = colheita docs 1 (k - 1)) by exact Hd.
  unfold run. rewrite script_step, Hc.
  destruct (colheita docs 1 (k - 1)) as [|d ds] eqn:Hcolh.
  - rewrite (salvar_vazio _ Hdf). cbn [fst snd].
    split; [reflexivity|]. split; [exact Hdf|]. intros Hne. congruence.
  - assert (Hne : dados_gerais_imoveis (fechado m') <> []) by (rewrite Hdf; discriminate).
    rewrite (salvar_dados _ Hne). cbn [fst snd].
    split; [reflexivity|]. split; [exact Hdf|]. intros _.
    cbn [files salvo emit set_files]. unfold write_file. rewrite String.eqb_refl.
    cbn [option_map]. unfold arquivo_de. cbn [csv_table].
    rewrite (DataFrame_of_campos _ Hne Hwf), Hdf. reflexivity.
Qed.

Lemma X12_witness :
  fst (run Amostra.site_duas_paginas Amostra.disco_vazio) = Ok tt
  /\ dados_gerais_imoveis (snd (run Amostra.site_duas_paginas Amostra.disco_vazio))
     = colheita (fun i => if i =? 1 then Amostra.pagina (repeat Amostra.completo 20)
                          else Amostra.pagina []) 1 1.
Proof.
  destruct (X12_records_of_a_run Amostra.site_duas_paginas Amostra.disco_vazio
              (fun i => if i =? 1 then Amostra.pagina (repeat Amostra.completo 20)
                        else Amostra.pagina []) 2) as (H1 & H2 & _).
  - intros e. discriminate.
  - lia.
  - unfold MAX_PAGINAS. lia.
  - intros i Hi Hik. assert (i = 1) as -> by lia.
    split; [reflexivity|]. split; [vm_compute; discriminate|].
    intros c Hc. vm_compute in Hc.
    repeat (destruct Hc as [<-|Hc]; [right; right; discriminate|]).
    destruct Hc.
  - intros _. split; reflexivity.
  - split; [exact H1|exact H2].
Defined.

(** ** Stripped text *)

Lemma lstrip_bytes_aparado (n : nat) :
  forall l, List.length l <= n -> comeca_com_espaco (PyStr.lstrip_bytes l) = false.
Proof.
  induction n as [|n IH]; intros l Hn.
  - destruct l; [reflexivity|cbn in Hn; lia].
  - destruct l as [|a [|b [|c r]]]; cbn [PyStr.lstrip_bytes]; [reflexivity| | |].
    + destruct (PyStr.isspace_ascii a) eqn:Ea; [reflexivity|].
      cbn [comeca_com_espaco]. rewrite Ea. reflexivity.
    + destruct (PyStr.isspace_ascii a) eqn:Ea; [apply (IH [b]); cbn in *; lia|].
      destruct (PyStr.space2 a b) eqn:Eb; [reflexivity|].
      cbn [comeca_com_espaco]. rewrite Ea, Eb. reflexivity.
    + destruct (PyStr.isspace_ascii a) eqn:Ea; [apply (IH (b :: c :: r)); cbn in *; lia|].
      destruct (PyStr.space2 a b) eqn:Eb; [apply (IH (c :: r)); cbn in *; lia|].
      destruct (PyStr.space3 a b c) eqn:Ec; [apply (IH r); cbn in *; lia|].
      cbn [comeca_com_espaco]. rewrite Ea, Eb, Ec. reflexivity.
Qed.

Lemma lstrip_rev_bytes_eq (a : ascii) (r1 : list ascii) :
  PyStr.lstrip_rev_bytes (a :: r1)
  = if PyStr.isspace_ascii a then PyStr.lstrip_rev_bytes r1
    else match r1 with
         | [] => a :: r1
         | b :: r2 =>
             if PyStr.space2 b a then PyStr.lstrip_rev_bytes r2
             else match r2 with
                  | [] => a :: r1
                  | c :: r3 =>
                      if PyStr.space3 c b a then PyStr.lstrip_rev_bytes r3 else a :: r1
                  end
         end.
Proof. reflexivity. Qed.

Lemma lstrip_rev_bytes_aparado (n : nat) :
  forall l, List.length l <= n ->
    comeca_com_espaco_rev (PyStr.lstrip_rev_bytes l) = false
    /\ exists pre, l = (pre ++ PyStr.lstrip_rev_bytes l)%list.
Proof.
  induction n as [|n IH]; intros l Hn.
  - destruct l; [split; [reflexivity|exists []; reflexivity]|cbn in Hn; lia].
  - destruct l as [|a [|b [|c r]]];
      [|rewrite lstrip_rev_bytes_eq; cbv beta iota..].
    + split; [reflexivity|exists []; reflexivity].
    + destruct (PyStr.isspace_ascii a) eqn:Ea.
      * split; [reflexivity|exists [a]; reflexivity].
      * split; [cbn [comeca_com_espaco_rev]; rewrite Ea; reflexivity
               |exists []; reflexivity].
    + destruct (PyStr.isspace_ascii a) eqn:Ea.
      * destruct (IH [b]) as [H1 [pre H2]]; [cbn in *; lia|].
        split; [exact H1|]. exists (a :: pre). cbn [app]. rewrite <- H2. reflexivity.
      * destruct (PyStr.space2 b a) eqn:Eb.
        { split; [reflexivity|exists [a; b]; reflexivity]. }
        split; [cbn [comeca_com_espaco_rev]; rewrite Ea, Eb; reflexivity
               |exists []; reflexivity].
    + destruct (PyStr.isspace_ascii a) eqn:Ea.
      * destruct (IH (b :: c :: r)) as [H1 [pre H2]]; [cbn in *; lia|].
        split; [exact H1|]. exists (a :: pre). cbn [app]. rewrite <- H2. reflexivity.
      * destruct (PyStr.space2 b a) eqn:Eb.
        { destruct (IH (c :: r)) as [H1 [pre H2]]; [cbn in *; lia|].
          split; [exact H1|]. exists (a :: b :: pre). cbn [app]. rewrite <- H2.
          reflexivity. }
        destruct (PyStr.space3 c b a) eqn:Ec.
        { destruct (IH r) as [H1 [pre H2]]; [cbn in *; lia|].
          split; [exact H1|]. exists (a :: b :: c :: pre). cbn [app]. rewrite <- H2.
          reflexivity. }
        split; [cbn [comeca_com_espaco_rev]; rewrite Ea, Eb, Ec; reflexivity
               |exists []; reflexivity].
Qed.

Lemma comeca_com_espaco_prefixo (r t : list ascii) :
  comeca_com_espaco (r ++ t) = false -> comeca_com_espaco r = false.
Proof.
  destruct r as [|a [|b [|c r]]]; cbn [app comeca_com_espaco]; intros H.
  - reflexivity.
  - apply orb_false_iff in H as [Ha _]. rewrite Ha. reflexivity.
  - apply orb_false_iff in H as [Ha H].
    apply orb_false_iff in H as [Hb _]. rewrite Ha, Hb. reflexivity.
  - exact H.
Qed.

Lemma lstrip_bytes_fixo (l : list ascii) :
  comeca_com_espaco l = false -> PyStr.lstrip_bytes l = l.
Proof.
  destruct l as [|a [|b [|c r]]]; cbn [comeca_com_espaco PyStr.lstrip_bytes]; intros H.
  - reflexivity.
  - rewrite orb_false_r in H. rewrite H. reflexivity.
  - rewrite orb_false_r in H. apply orb_false_iff in H as [Ha Hb].
    rewrite Ha, Hb. reflexivity.
  - apply orb_false_iff in H as [Ha H]. apply orb_false_iff in H as [Hb Hc].
    rewrite Ha, Hb, Hc. reflexivity.
Qed.

Lemma lstrip_rev_bytes_fixo (l : list ascii) :
  comeca_com_espaco_rev l = false -> PyStr.lstrip_rev_bytes l = l.
Proof.
  destruct l as [|a [|b [|c r]]]; cbn [comeca_com_espaco_rev PyStr.lstrip_rev_bytes]; intros H.
  - reflexivity.
  - rewrite orb_false_r in H. rewrite H. reflexivity.
  - rewrite orb_false_r in H. apply orb_false_iff in H as [Ha Hb].
    rewrite Ha, Hb. reflexivity.
  - apply orb_false_iff in H as [Ha H]. apply orb_false_iff in H as [Hb Hc].
    rewrite Ha, Hb, Hc. reflexivity.
Qed.

Lemma strip_aparado (s : string) :
  aparado (PyStr.strip s) /\ PyStr.strip (PyStr.strip s) = PyStr.strip s.
Proof.
  unfold aparado, PyStr.strip.
  set (L := PyStr.lstrip_bytes (list_ascii_of_string s)).
  assert (HL : comeca_com_espaco L = false)
    by (apply (lstrip_bytes_aparado (List.length (list_ascii_of_string s))), le_n).
  destruct (lstrip_rev_bytes_aparado (List.length (rev L)) (rev L) (le_n _))
    as [HY [pre Hpre]].
  set (Y := PyStr.lstrip_rev_bytes (rev L)) in *.
  assert (HR : comeca_com_espaco (rev Y) = false).
  { apply (comeca_com_espaco_prefixo (rev Y) (rev pre)).
    rewrite <- rev_app_distr, <- Hpre, rev_involutive. exact HL. }
  rewrite !list_ascii_of_string_of_list_ascii, !rev_involutive.
  split; [split; assumption|].
  rewrite (lstrip_bytes_fixo _ HR), rev_involutive, (lstrip_rev_bytes_fixo _ HY).
  reflexivity.
Qed.

(** X13. [strip()] leaves no white space at either end of a text, and
    stripping again changes nothing.  So in every record the price, the
    address and the four features carry no white space around them: each
    is a stripped text or the sentinel "N/A". *)
Theorem X13_text_fields_are_stripped :
  (forall s, aparado (PyStr.strip s) /\ PyStr.strip (PyStr.strip s) = PyStr.strip s)
  /\ (forall c d k, extrair c = Ok d -> In k campos_de_texto ->
        exists v, lookup k d = Some v /\ aparado v /\ PyStr.strip v = v).
Proof.
  split; [exact strip_aparado|].
  intros c d k H Hk.
  destruct (find q_price c) as [p|] eqn:Hp;
    [|rewrite (extrair_sem_preco c Hp) in H; discriminate].
  destruct (find q_address c) as [a|] eqn:Ha;
    [|rewrite (extrair_sem_endereco c p Hp Ha) in H; discriminate].
  destruct (find q_link c) as [l|] eqn:Hl;
    [|rewrite (extrair_sem_link c p a Hp Ha Hl) in H; discriminate].
  destruct (find q_features c) as [u|] eqn:Hf;
    [|rewrite (extrair_sem_features c p a l Hp Ha Hl Hf) in H; discriminate].
  destruct (find_link_href c l Hl) as [v Hv].
  rewrite (extrair_completo c p a l u v Hp Ha Hl Hv Hf) in H. injection H as <-.
  assert (Hfeat : forall name,
             aparado (feature_em u name) /\ PyStr.strip (feature_em u name) = feature_em u name).
  { intros name. unfold feature_em.
    destruct (find (ByAttr "li" "title" name) u);
      [apply strip_aparado|split; [split; reflexivity|reflexivity]]. }
  unfold campos_de_texto in Hk. cbn [In] in Hk.
  destruct Hk as [<-|[<-|[<-|[<-|[<-|[<-|[]]]]]]];
    eexists; (split; [reflexivity|]);
    first [apply strip_aparado|apply Hfeat].
Qed.

Lemma X13_witness :
  exists v, lookup "preco_anuncio"
              [ ("preco_anuncio", "R$ 2.500"); ("endereco", "SQN 210, Asa Norte");
                ("area_util_m2", "80 m²"); ("quartos", "3"); ("suites", "1");
                ("vagas", "2"); ("url", "https://www.dfimoveis.com.br/imovel/1") ]
            = Some v
            /\ aparado v /\ PyStr.strip v = v.
Proof.
  apply (proj2 X13_text_fields_are_stripped Amostra.completo _ "preco_anuncio").
  - vm_compute. reflexivity.
  - left. reflexivity.
Defined.

(** ** The file system *)

(** X14. No run touches a path other than the fixed output path, and a
    run writes that file at most once: it is written exactly when the run
    ends normally with at least one record collected. *)
Theorem X14_only_the_output_file_is_written (site : string -> response) (fs : filesystem) :
  (forall p, p <> NOME_ARQUIVO_BRUTO -> files (snd (run site fs)) p = fs p)
  /\ (writes (log (snd (run site fs))) = [NOME_ARQUIVO_BRUTO]
      /\ fst (run site fs) = Ok tt
      /\ dados_gerais_imoveis (snd (run site fs)) <> []
      \/ writes (log (snd (run site fs))) = []
         /\ files (snd (run site fs)) = fs
         /\ (fst (run site fs) = Ok tt -> dados_gerais_imoveis (snd (run site fs)) = [])).
Proof.
  destruct (run_cases site fs) as (r1 & m1 & Hc & Hrun).
  destruct (coleta_resumo site fs r1 m1 Hc) as (_ & Hf & _ & _ & Hw & _ & _).
  destruct Hrun as [(_ & Hd & Hr)|[(_ & Hd & Hr)|(e & _ & Hr)]]; rewrite Hr; cbn [fst snd].
  - split; [intros p _; cbn [files emit]; rewrite Hf; reflexivity|].
    right. cbn [log emit files dados_gerais_imoveis].
    rewrite writes_app, Hw. auto.
  - split.
    + intros p Hp. cbn [files salvo emit set_files]. unfold write_file.
      apply String.eqb_neq in Hp. rewrite Hp, Hf. reflexivity.
    + left. rewrite log_salvo, writes_app, Hw.
      split; [reflexivity|]. split; [reflexivity|exact Hd].
  - split; [intros p _; rewrite Hf; reflexivity|].
    right. split; [exact Hw|]. split; [exact Hf|]. discriminate.
Qed.

Lemma X14_witness :
  files (snd (run Amostra.site_duas_paginas Amostra.disco_usado)) "outro.csv"
  = Amostra.disco_usado "outro.csv".
Proof.
  apply (proj1 (X14_only_the_output_file_is_written
                  Amostra.site_duas_paginas Amostra.disco_usado)).
  discriminate.
Defined.
